(** * Trip planner (Ifrane MVP): scoring, ranking, explanations, itinerary

    A shallow embedding of [src/app.py] and [src/providers/*.py].

    Modelling conventions.
    - Python [float] values are exact rationals ([Q]); arithmetic is the
      field arithmetic of [Q], compared with [==].  Binary64 rounding of
      the individual operations is not modelled, so equalities and strict
      inequalities between scores are those of exact arithmetic.
    - Python [int] values are [Z].
    - Python [str] values are [string]; [str.lower] and [str.strip] act on
      the ASCII range.
    - A raised exception ([ValueError] of a date that does not parse,
      [ZeroDivisionError], [OverflowError] of a date outside the calendar)
      is [None] in the [option] error monad.
    - [math.log10], [repr] of a float, [os.getenv] and the two provider
      clients are the program's environment; they are the fields of type
      classes, with the stub clients of [src/providers] as an instance.
    - The functions take any [TripInput]; the bounds that the HTTP layer
      validates (1 to 20 travelers, a budget of at least 10) are not
      assumed. *)

From Stdlib Require Import ZArith QArith Qround Qabs Bool List String Ascii.
From Stdlib Require Import DecimalString.
From Stdlib Require Import Lia Lqa Sorted Permutation.
Import ListNotations.

(** ** Error monad for code that may raise *)

Definition bind {A B : Type} (m : option A) (k : A -> option B) : option B :=
  match m with
  | Some a => k a
  | None => None
  end.

Notation "x <- m ;; k" := (bind m (fun x => k))
  (at level 61, m at next level, right associativity).

Fixpoint mapM {A B : Type} (f : A -> option B) (l : list A) : option (list B) :=
  match l with
  | [] => Some []
  | a :: r => b <- f a ;; bs <- mapM f r ;; Some (b :: bs)
  end.

(** ** Strings: [str.lower], [str.strip], [str.join], [in] *)

Module Str.

Definition lower_ascii (c : ascii) : ascii :=
  let n := N_of_ascii c in
  if ((65 <=? n) && (n <=? 90))%N then ascii_of_N (n + 32) else c.

Fixpoint lower (s : string) : string :=
  match s with
  | EmptyString => EmptyString
  | String c r => String (lower_ascii c) (lower r)
  end.

(** [str.isspace] on the ASCII range: TAB, LF, VT, FF, CR, FS, GS, RS,
    US and the space. *)
Definition isspace (c : ascii) : bool :=
  let n := N_of_ascii c in
  (((9 <=? n) && (n <=? 13)) || ((28 <=? n) && (n <=? 32)))%N.

Fixpoint lstrip (s : string) : string :=
  match s with
  | EmptyString => EmptyString
  | String c r => if isspace c then lstrip r else s
  end.

Fixpoint rstrip (s : string) : string :=
  match s with
  | EmptyString => EmptyString
  | String c r =>
      match rstrip r with
      | EmptyString => if isspace c then EmptyString else String c EmptyString
      | r' => String c r'
      end
  end.

Definition strip (s : string) : string := rstrip (lstrip s).

Definition join (sep : string) (l : list string) : string :=
  String.concat sep l.

(** [x in l] for a list or a set of strings. *)
Definition mem (x : string) (l : list string) : bool :=
  existsb (String.eqb x) l.

End Str.

(** ** Numbers: [max], [min], [clamp], [round] *)

Module PyNum.
Local Open Scope Q_scope.

Definition Qlt_bool (a b : Q) : bool := negb (Qle_bool b a).

(** [max(a, b)] keeps [a] unless [b > a]; [min(a, b)] keeps [a] unless
    [b < a]. *)
Definition max (a b : Q) : Q := if Qlt_bool a b then b else a.
Definition min (a b : Q) : Q := if Qlt_bool b a then b else a.

Definition Zmax (a b : Z) : Z := if (a <? b)%Z then b else a.

(** [clamp] of [src/app.py]. *)
Definition clamp (x lo hi : Q) : Q := max lo (min hi x).

(** Nearest integer, ties to the even one. *)
Definition round_half_even (y : Q) : Z :=
  let f := Qfloor y in
  match Qcompare (y - inject_Z f) (1 # 2) with
  | Lt => f
  | Gt => (f + 1)%Z
  | Eq => if Z.even f then f else (f + 1)%Z
  end.

Definition pow10 (n : nat) : Z := (10 ^ Z.of_nat n)%Z.

(** [round(x, ndigits)] on a float, [ndigits >= 0]. *)
Definition round (x : Q) (ndigits : nat) : Q :=
  inject_Z (round_half_even (x * inject_Z (pow10 ndigits)))
  / inject_Z (pow10 ndigits).

(** [round(n, ndigits)] on an int with [ndigits >= 0] returns [n]. *)
Definition round_int (n : Z) (ndigits : nat) : Z := n.

(** [float(n)]. *)
Definition float (n : Z) : Q := inject_Z n.

(** [a / b]; [ZeroDivisionError] when [b] is zero. *)
Definition div (a b : Q) : option Q :=
  if Qeq_bool b 0 then None else Some (a / b).

(** [sum(l)]. *)
Definition sum (l : list Q) : Q := fold_left Qplus l 0.

End PyNum.

(** ** Calendar dates: the part of [datetime.date] the program uses *)

Module Date.
Local Open Scope Z_scope.

Record date := mkDate { year : Z; month : Z; day : Z }.

Definition MAXORDINAL : Z := 3652059.

Definition is_leap (y : Z) : bool :=
  (y mod 4 =? 0) && (negb (y mod 100 =? 0) || (y mod 400 =? 0)).

Definition days_in_month (y m : Z) : Z :=
  if (m =? 2) && is_leap y then 29
  else nth (Z.to_nat m) [0; 31; 28; 31; 30; 31; 30; 31; 31; 30; 31; 30; 31] 0.

Definition DAYS_BEFORE_MONTH : list Z :=
  [0; 0; 31; 59; 90; 120; 151; 181; 212; 243; 273; 304; 334].

Definition days_before_year (y : Z) : Z :=
  let y1 := y - 1 in
  y1 * 365 + y1 / 4 - y1 / 100 + y1 / 400.

Definition days_before_month (y m : Z) : Z :=
  nth (Z.to_nat m) DAYS_BEFORE_MONTH 0
  + (if (2 <? m) && is_leap y then 1 else 0).

Definition ymd2ord (y m d : Z) : Z :=
  days_before_year y + days_before_month y m + d.

Definition toordinal (d : date) : Z := ymd2ord (year d) (month d) (day d).

(** [_ord2ymd]: the inverse of [ymd2ord]. *)
Definition ord2ymd (n0 : Z) : date :=
  let n := n0 - 1 in
  let n400 := n / 146097 in
  let n := n mod 146097 in
  let y := n400 * 400 + 1 in
  let n100 := n / 36524 in
  let n := n mod 36524 in
  let n4 := n / 1461 in
  let n := n mod 1461 in
  let n1 := n / 365 in
  let n := n mod 365 in
  let y := y + n100 * 100 + n4 * 4 + n1 in
  if (n1 =? 4) || (n100 =? 4) then mkDate (y - 1) 12 31
  else
    let leapyear := (n1 =? 3) && (negb (n4 =? 24) || (n100 =? 3)) in
    let m := Z.shiftr (n + 50) 5 in
    let preceding :=
      nth (Z.to_nat m) DAYS_BEFORE_MONTH 0
      + (if (2 <? m) && leapyear then 1 else 0) in
    if n <? preceding then
      let m' := m - 1 in
      let preceding' :=
        preceding
        - (nth (Z.to_nat m') [0; 31; 28; 31; 30; 31; 30; 31; 31; 30; 31; 30; 31] 0
           + (if (m' =? 2) && leapyear then 1 else 0)) in
      mkDate y m' (n - preceding' + 1)
    else mkDate y m (n - preceding + 1).

(** [date(y, m, d)]: [ValueError] outside the calendar. *)
Definition make (y m d : Z) : option date :=
  if (1 <=? y) && (y <=? 9999) && (1 <=? m) && (m <=? 12)
     && (1 <=? d) && (d <=? days_in_month y m)
  then Some (mkDate y m d) else None.

Definition digit (c : ascii) : option Z :=
  let n := Z.of_N (N_of_ascii c) in
  if (48 <=? n) && (n <=? 57) then Some (n - 48) else None.

Fixpoint digits (acc : Z) (l : list ascii) : option Z :=
  match l with
  | [] => Some acc
  | c :: r => v <- digit c ;; digits (acc * 10 + v) r
  end.

(** [date.fromisoformat] on the extended calendar format [YYYY-MM-DD], the
    format [TripInput] documents: four, two and two ASCII digits separated
    by hyphens, denoting a day of the calendar; anything else raises
    [ValueError]. *)
Definition fromisoformat (s : string) : option date :=
  match list_ascii_of_string s with
  | [y1; y2; y3; y4; s1; m1; m2; s2; d1; d2] =>
      if Ascii.eqb s1 "-" && Ascii.eqb s2 "-" then
        y <- digits 0 [y1; y2; y3; y4] ;;
        m <- digits 0 [m1; m2] ;;
        d <- digits 0 [d1; d2] ;;
        make y m d
      else None
  | _ => None
  end.

(** [(b - a).days]. *)
Definition days_between (a b : date) : Z := toordinal b - toordinal a.

(** [d + timedelta(days=i)]: [OverflowError] outside year 1..9999. *)
Definition add_days (d : date) (i : Z) : option date :=
  let o := toordinal d + i in
  if (0 <? o) && (o <=? MAXORDINAL) then Some (ord2ymd o) else None.

Definition digit_char (v : Z) : ascii := ascii_of_N (Z.to_N (48 + v mod 10)).

(** [%0wd] for a non-negative number of at most [w] digits. *)
Fixpoint zero_padded (w : nat) (v : Z) : string :=
  match w with
  | O => EmptyString
  | S w' => (zero_padded w' (v / 10) ++ String (digit_char v) EmptyString)%string
  end.

Definition isoformat (d : date) : string :=
  (zero_padded 4 (year d) ++ "-" ++ zero_padded 2 (month d) ++ "-"
   ++ zero_padded 2 (day d))%string.

End Date.


(** ** Number formatting: [str(int)] and the [.Nf] format of an f-string *)

Module Fmt.
Local Open Scope Q_scope.

(** [str(n)] for an int. *)
Definition str_int (n : Z) : string :=
  DecimalString.NilZero.string_of_int (Z.to_int n).

(** [f"{x:.Nf}"]: the decimal with [prec] fractional digits nearest to
    [x], ties to even. *)
Definition format_f (x : Q) (prec : nat) : string :=
  let m := PyNum.round_half_even (Qabs x * inject_Z (PyNum.pow10 prec)) in
  let sign := if PyNum.Qlt_bool x 0 then "-"%string else ""%string in
  let int_part := str_int (m / PyNum.pow10 prec)%Z in
  match prec with
  | O => (sign ++ int_part)%string
  | S _ =>
      (sign ++ int_part ++ "." ++ Date.zero_padded prec (m mod PyNum.pow10 prec)%Z)%string
  end.

End Fmt.

(** ** Data model ([src/providers/mock.py], [src/app.py]) *)

Record StayListing := mkStayListing {
  id : string;
  platform : string;
  name : string;
  area : string;
  nightly_price : Q;
  rating : Q;
  reviews : Z;
  amenities : list string;
  url : string;
  distance_km_to_center : Q;
  room_type : string
}.

Record TripInput := mkTripInput {
  destination : string;
  start_date : string;
  end_date : string;
  travelers : Z;
  nightly_budget : Q;
  style : string;
  must_haves : list string;
  dealbreakers : list string;
  prefer_areas : list string
}.

Record ItineraryDay := mkItineraryDay {
  date : string;
  morning : string;
  afternoon : string;
  evening : string;
  est_cost : Q
}.

Record ItineraryResponse := mkItineraryResponse {
  it_destination : string;
  days : list ItineraryDay;
  total_est_cost : Q;
  notes : list string
}.

(** The [parts] dictionary of [score_listing]: always the four keys
    ["budget"], ["quality"], ["location"], ["amenities"]. *)
Record ScoreBreakdown := mkScoreBreakdown {
  budget : Q;
  quality : Q;
  location : Q;
  amenities_part : Q
}.

Record StayRecommendation := mkStayRecommendation {
  listing : StayListing;
  match_score : Q;
  why : list string;
  est_total_price : Q
}.

Record StaysResponse := mkStaysResponse {
  st_destination : string;
  nights : Z;
  currency_note : string;
  recommendations : list StayRecommendation
}.

Record BookingSearchRequest := mkBookingSearchRequest {
  city : string;
  bk_checkin : string;
  bk_checkout : string;
  bk_adults : Z
}.

Record AirbnbSearchRequest := mkAirbnbSearchRequest {
  query : string;
  ab_checkin : string;
  ab_checkout : string;
  ab_adults : Z
}.

(** ** The environment of the program *)

(** What the Python runtime supplies: [math.log10] on a positive int (its
    float result, as a rational), [repr] of a float, [os.getenv]. *)
Class Runtime := {
  log10 : Z -> Q;
  float_repr : Q -> string;
  getenv : string -> option string
}.

(** The two provider clients, [BookingDemandClient(token, affiliate_id)]
    and [AirbnbPartnerClient(token)], through their [search_stays]. *)
Class Providers := {
  booking_search_stays : string -> string -> BookingSearchRequest -> list StayListing;
  airbnb_search_stays : string -> AirbnbSearchRequest -> list StayListing
}.

(** [src/providers/booking_demand.py] and [src/providers/airbnb_partner.py]:
    both clients return the empty list. *)
#[export] Instance stub_providers : Providers := {
  booking_search_stays := fun _ _ _ => [];
  airbnb_search_stays := fun _ _ => []
}.

(** [MOCK_LISTINGS] of [src/providers/mock.py]. *)
Definition MOCK_LISTINGS : list StayListing :=
  [ mkStayListing "bkg-ifr-001" "booking" "Ifrane Mountain Hotel (Mock)"
      "City Center" 65 8.4 780 ["wifi"; "heating"; "parking"]%string
      "https://example.com/booking/bkg-ifr-001" 0.6 "hotel_room";
    mkStayListing "bkg-ifr-002" "booking" "Cozy Chalet Near Cedar Forest (Mock)"
      "Outskirts" 92 8.9 214 ["wifi"; "kitchen"; "heating"; "parking"]%string
      "https://example.com/booking/bkg-ifr-002" 3.2 "entire_place";
    mkStayListing "bnb-ifr-101" "airbnb" "Private Room w/ Fireplace (Mock)"
      "City Center" 45 4.78 133 ["wifi"; "heating"]%string
      "https://example.com/airbnb/bnb-ifr-101" 0.9 "private_room";
    mkStayListing "bnb-ifr-102" "airbnb" "Family Apartment (Mock)"
      "City Center" 72 4.86 89 ["wifi"; "kitchen"; "heating"]%string
      "https://example.com/airbnb/bnb-ifr-102" 1.1 "entire_place" ].

(** ** [src/app.py]: dates and scores *)

Definition parse_date (s : string) : option Date.date := Date.fromisoformat s.

Definition nights_between (start end_ : string) : option Z :=
  a <- parse_date start ;;
  b <- parse_date end_ ;;
  Some (PyNum.Zmax 1 (Date.days_between a b)).

Definition clamp := PyNum.clamp.

Section Scores.
Local Open Scope Q_scope.
Context {RT : Runtime}.

Definition normalize_rating (platform : string) (rating : Q) : Q :=
  clamp (rating / (if String.eqb platform "booking" then 10.0 else 5.0)) 0.0 1.0.

(** The divisor [max(nightly_budget, 1e-6)] is at least [1e-6], written
    [0.000001] below, so neither division can raise. *)
Definition budget_fit_score (nightly_price nightly_budget : Q) : Q :=
  if Qle_bool nightly_price nightly_budget then
    clamp (0.85 + 0.15 * (1 - nightly_price / PyNum.max nightly_budget 0.000001)) 0.0 1.0
  else
    let over := (nightly_price - nightly_budget) / PyNum.max nightly_budget 0.000001 in
    clamp (1.0 - 1.4 * over) 0.0 1.0.

(** [ZeroDivisionError] when [1.0 + 0.35 * distance_km] is zero. *)
Definition location_score (distance_km : Q) : option Q :=
  r <- PyNum.div 1.0 (1.0 + 0.35 * distance_km) ;;
  Some (clamp r 0.0 1.0).

(** [max(reviews, 1)] is at least 1, inside the domain of [math.log10]. *)
Definition quality_score (platform : string) (rating : Q) (reviews : Z) : Q :=
  let r := normalize_rating platform rating in
  let conf := clamp (log10 (PyNum.Zmax reviews 1) / 3.0) 0.0 1.0 in
  clamp (0.75 * r + 0.25 * conf) 0.0 1.0.

Definition amenities_score (listing_amenities must_haves : list string) : Q :=
  match must_haves with
  | [] => 0.7
  | _ =>
      let have := map Str.lower listing_amenities in
      let need := map Str.lower must_haves in
      let hit := Z.of_nat (List.length (filter (fun m => Str.mem m have) need)) in
      clamp (inject_Z hit / inject_Z (PyNum.Zmax (Z.of_nat (List.length need)) 1)) 0.0 1.0
  end.

Definition dealbreaker_ok (room_type : string) (dealbreakers : list string) : bool :=
  let db := map Str.lower dealbreakers in
  if Str.mem "shared_room" db && String.eqb room_type "shared_room" then false
  else if Str.mem "private_room" db && String.eqb room_type "private_room" then false
  else true.

Definition area_bonus (area : string) (prefer_areas : list string) : Q :=
  match prefer_areas with
  | [] => 0.0
  | _ =>
      let p := map Str.lower prefer_areas in
      if Str.mem (Str.lower area) p then 0.12 else 0.0
  end.

Definition score_listing (l : StayListing) (trip : TripInput)
  : option (Q * ScoreBreakdown) :=
  let b := budget_fit_score (nightly_price l) (nightly_budget trip) in
  let q := quality_score (platform l) (rating l) (reviews l) in
  loc <- location_score (distance_km_to_center l) ;;
  let a := amenities_score (amenities l) (must_haves trip) in
  let base := 0.40 * b + 0.25 * q + 0.20 * loc + 0.15 * a in
  let base := clamp (base + area_bonus (area l) (prefer_areas trip)) 0.0 1.0 in
  Some (base * 100.0, mkScoreBreakdown b q loc a).

End Scores.

(** ** [src/app.py]: explanations *)

Section Explain.
Local Open Scope string_scope.
Context {RT : Runtime}.

Definition within_budget_line (price budget_ : Q) : string :=
  "Within your nightly budget (" ++ Fmt.format_f price 0 ++ " ≤ "
  ++ Fmt.format_f budget_ 0 ++ ").".

Definition over_budget_line (price budget_ : Q) : string :=
  "Over budget by " ++ Fmt.format_f (price - budget_)%Q 0
  ++ " per night (stretch option).".

Definition strong_quality_line (rating : Q) (reviews : Z) : string :=
  "Strong quality signals (rating " ++ float_repr rating ++ " with "
  ++ Fmt.str_int reviews ++ " reviews).".

Definition fewer_reviews_line : string :=
  "Fewer reviews than ideal—treat this option with a bit more caution.".

Definition solid_rating_line (rating : Q) (reviews : Z) : string :=
  "Solid rating (" ++ float_repr rating ++ ") and review count ("
  ++ Fmt.str_int reviews ++ ").".

Definition convenient_line (distance : Q) : string :=
  "Convenient location (~" ++ Fmt.format_f distance 1 ++ " km to center).".

Definition farther_line (distance : Q) : string :=
  "Farther from the center (~" ++ Fmt.format_f distance 1
  ++ " km)—better if you have transport.".

Definition meets_all_line : string := "Meets all your must-have amenities.".

Definition missing_line (missing : list string) : string :=
  "Missing: " ++ Str.join ", " missing ++ ".".

Definition explain_listing (l : StayListing) (trip : TripInput)
    (parts : ScoreBreakdown) : list string :=
  let why : list string := [] in
  let why :=
    if Qle_bool (nightly_price l) (nightly_budget trip)
    then (why ++ [within_budget_line (nightly_price l) (nightly_budget trip)])%list
    else (why ++ [over_budget_line (nightly_price l) (nightly_budget trip)])%list in
  let why :=
    if Qle_bool 0.8 (quality parts)
    then (why ++ [strong_quality_line (rating l) (reviews l)])%list
    else if (reviews l <? 50)%Z
    then (why ++ [fewer_reviews_line])%list
    else (why ++ [solid_rating_line (rating l) (reviews l)])%list in
  let why :=
    if Qle_bool 0.6 (location parts)
    then (why ++ [convenient_line (distance_km_to_center l)])%list
    else (why ++ [farther_line (distance_km_to_center l)])%list in
  match must_haves trip with
  | [] => why
  | _ =>
      let missing :=
        filter (fun m => negb (Str.mem (Str.lower m) (map Str.lower (amenities l))))
               (must_haves trip) in
      match missing with
      | [] => (why ++ [meets_all_line])%list
      | _ => (why ++ [missing_line missing])%list
      end
  end.

End Explain.

(** ** [src/app.py]: itinerary *)

(** A dictionary literal, [d[k]] ([KeyError] as [None]) and [d.get(k, v)]. *)
Definition dict (V : Type) := list (string * V).

Fixpoint dict_index {V : Type} (d : dict V) (k : string) : option V :=
  match d with
  | [] => None
  | (k', v) :: r => if String.eqb k k' then Some v else dict_index r k
  end.

Definition dict_get {V : Type} (d : dict V) (k : string) (default : V) : V :=
  match dict_index d k with
  | Some v => v
  | None => default
  end.

Definition morning_opts : dict string :=
  [ ("relaxed", "Slow breakfast + cedar forest walk");
    ("packed", "Early start: viewpoints + town highlights");
    ("foodie", "Local café + pastry stop");
    ("culture", "Azrou day trip idea + cedar forest history");
    ("nightlife", "Café hopping + evening stroll");
    ("balanced", "Town center walk + scenic stop") ]%string.

Definition afternoon_opts : dict string :=
  [ ("relaxed", "Lakeside chill time + coffee");
    ("packed", "Outdoor activity (hike / excursion)");
    ("foodie", "Try local tagine + tea time");
    ("culture", "Local crafts + heritage walk");
    ("nightlife", "Rooftop lunch + downtime");
    ("balanced", "Lunch + one planned activity") ]%string.

Definition evening_opts : dict string :=
  [ ("relaxed", "Sunset viewpoint + easy dinner");
    ("packed", "Dinner + night walk loop");
    ("foodie", "Dinner + dessert tasting");
    ("culture", "Traditional dinner + mint tea");
    ("nightlife", "Lounge/café + late tea");
    ("balanced", "Dinner + optional stroll") ]%string.

Definition base_pp_table : dict Z :=
  [ ("relaxed", 30); ("packed", 50); ("foodie", 55);
    ("culture", 45); ("nightlife", 55); ("balanced", 40) ]%string%Z.

Definition itinerary_notes : list string :=
  [ "MVP itinerary is heuristic (no live attraction data yet).";
    "Add maps + opening hours later for a production version." ]%string.


(** [range(n)]. *)
Definition range (n : Z) : list Z := map Z.of_nat (seq 0 (Z.to_nat n)).

Definition itinerary_day (trip : TripInput) (start : Date.date)
    (style_ : string) (base_pp : Z) (i : Z) : option ItineraryDay :=
  d <- Date.add_days start i ;;
  let bump := ((i mod 3) * 3)%Z in
  let est := ((base_pp + bump) * travelers trip)%Z in
  m <- dict_index morning_opts "balanced" ;;
  a <- dict_index afternoon_opts "balanced" ;;
  e <- dict_index evening_opts "balanced" ;;
  Some (mkItineraryDay (Date.isoformat d)
          (dict_get morning_opts style_ m)
          (dict_get afternoon_opts style_ a)
          (dict_get evening_opts style_ e)
          (PyNum.float (PyNum.round_int est 2))).

Definition generate_itinerary (trip : TripInput) : option ItineraryResponse :=
  start <- parse_date (start_date trip) ;;
  end_ <- parse_date (end_date trip) ;;
  let n_days := PyNum.Zmax 1 (Date.days_between start end_) in
  let style_ := Str.strip (Str.lower (style trip)) in
  let base_pp := dict_get base_pp_table style_ 40%Z in
  days_ <- mapM (itinerary_day trip start style_ base_pp) (range n_days) ;;
  let total := PyNum.round (PyNum.sum (map est_cost days_)) 2 in
  Some (mkItineraryResponse (destination trip) days_ total itinerary_notes).

(** ** [src/app.py]: listings and recommendations *)

(** Truth value of what [os.getenv] returns: set and not empty. *)
Definition truthy (v : option string) : bool :=
  match v with
  | Some s => negb (String.eqb s "")
  | None => false
  end.

Section Stays.
Context {RT : Runtime} {PV : Providers}.

Definition booking_listings (trip : TripInput) : list StayListing :=
  let booking_token := getenv "BOOKING_DEMAND_TOKEN" in
  let booking_affiliate_id := getenv "BOOKING_AFFILIATE_ID" in
  match booking_token, booking_affiliate_id with
  | Some tok, Some aff =>
      if truthy booking_token && truthy booking_affiliate_id then
        booking_search_stays tok aff
          (mkBookingSearchRequest (destination trip) (start_date trip)
             (end_date trip) (travelers trip))
      else []
  | _, _ => []
  end.

Definition airbnb_listings (trip : TripInput) : list StayListing :=
  let airbnb_token := getenv "AIRBNB_PARTNER_TOKEN" in
  match airbnb_token with
  | Some tok =>
      if truthy airbnb_token then
        airbnb_search_stays tok
          (mkAirbnbSearchRequest (destination trip) (start_date trip)
             (end_date trip) (travelers trip))
      else []
  | None => []
  end.

Definition fetch_listings (trip : TripInput) : list StayListing :=
  let combined := booking_listings trip ++ airbnb_listings trip in
  match combined with
  | [] => MOCK_LISTINGS
  | _ => combined
  end.

(** [list.sort(key=..., reverse=True)] is a stable sort into descending
    key order: elements with equal keys keep their relative order.  A
    stable sort determines its result, so insertion stands for it. *)
Fixpoint insert_desc {A : Type} (key : A -> Q) (x : A) (l : list A) : list A :=
  match l with
  | [] => [x]
  | y :: r =>
      if PyNum.Qlt_bool (key x) (key y) then y :: insert_desc key x r
      else x :: y :: r
  end.

Fixpoint sort_desc {A : Type} (key : A -> Q) (l : list A) : list A :=
  match l with
  | [] => []
  | x :: r => insert_desc key x (sort_desc key r)
  end.

Definition surviving_listings (trip : TripInput) : list StayListing :=
  filter (fun l => dealbreaker_ok (room_type l) (dealbreakers trip))
         (fetch_listings trip).

Definition score_entry (trip : TripInput) (l : StayListing)
  : option (Q * StayListing * ScoreBreakdown) :=
  sp <- score_listing l trip ;;
  Some (fst sp, l, snd sp).

Definition recommendation (trip : TripInput) (n : Z)
    (e : Q * StayListing * ScoreBreakdown) : StayRecommendation :=
  let '(score, l, parts) := e in
  mkStayRecommendation l
    (PyNum.round score 1)
    (explain_listing l trip parts)
    (PyNum.round (nightly_price l * inject_Z n) 2).

Definition recommend_stays (trip : TripInput) : option StaysResponse :=
  n <- nights_between (start_date trip) (end_date trip) ;;
  let listings := surviving_listings trip in
  scored <- mapM (score_entry trip) listings ;;
  let scored := sort_desc (fun x => fst (fst x)) scored in
  let recs := map (recommendation trip n) (firstn 10 scored) in
  Some (mkStaysResponse (destination trip) n
          "Set keys in .env to use Booking Demand API / Airbnb partner stub; otherwise mock data."
          recs).


End Stays.

(** ** A runnable environment

    Executable stand-ins for the runtime, to run the program on examples:
    the decimal logarithm truncated to three decimals, [repr] of a float as
    its shortest finite decimal (up to 17 fractional digits), and an
    operating-system environment with no variable set. *)

Module Sample.

(** The largest [k] with [10 ^ k <= p], for [p >= 1], found next to the
    estimate that the binary logarithm gives. *)
Definition floor_log10 (p : Z) : Z :=
  let k0 := (Z.log2 p * 30103 / 100000)%Z in
  if (10 ^ (k0 + 1) <=? p)%Z then (k0 + 1)%Z
  else if (10 ^ k0 <=? p)%Z then k0
  else (k0 - 1)%Z.

Definition log10_milli (n : Z) : Q :=
  inject_Z (floor_log10 (n ^ 1000)) / 1000.

Fixpoint decimals_needed (fuel k : nat) (x : Q) : nat :=
  match fuel with
  | O => k
  | S f =>
      let y := (x * inject_Z (PyNum.pow10 k))%Q in
      if Qeq_bool (inject_Z (Qfloor y)) y then k
      else decimals_needed f (S k) x
  end.

Definition repr (x : Q) : string :=
  Fmt.format_f x (Nat.max 1 (decimals_needed 17 0 x)).

Definition no_env (_ : string) : option string := None.

Definition runtime : Runtime :=
  {| log10 := log10_milli; float_repr := repr; getenv := no_env |}.

(** The trip of the end-to-end itinerary example. *)
Definition trip_relaxed : TripInput :=
  mkTripInput "Ifrane, Morocco" "2024-01-10" "2024-01-12" 2 70 "relaxed" [] [] [].

(** The same trip, with the room type of two catalog listings as a
    dealbreaker. *)
Definition trip_no_entire_place : TripInput :=
  mkTripInput "Ifrane, Morocco" "2024-01-10" "2024-01-12" 2 70 "relaxed" []
    ["entire_place"%string] [].

(** The same trip, refusing private rooms, in capitals. *)
Definition trip_no_private_room : TripInput :=
  mkTripInput "Ifrane, Morocco" "2024-01-10" "2024-01-12" 2 70 "relaxed" []
    ["PRIVATE_ROOM"%string] [].

End Sample.

(** ** Request validation

    The bounds that the [Field] declarations of [TripInput] put on a
    request body: [travelers] from 1 to 20 and [nightly_budget] at least
    10.  The two dates are plain strings and are not checked there. *)
Definition valid_trip (t : TripInput) : Prop :=
  (1 <= travelers t <= 20)%Z /\ (10 <= nightly_budget t)%Q.

(** Further sample inputs: the mock hotel, and trips that name a preferred
    area or a must-have amenity, or have a single traveler. *)
Module SampleMore.

Definition hotel : StayListing :=
  mkStayListing "bkg-ifr-001" "booking" "Ifrane Mountain Hotel (Mock)"
    "City Center" 65 8.4 780 ["wifi"; "heating"; "parking"]%string
    "https://example.com/booking/bkg-ifr-001" 0.6 "hotel_room".

Definition trip_city_center : TripInput :=
  mkTripInput "Ifrane, Morocco" "2024-01-10" "2024-01-12" 2 70 "relaxed"
    [] [] ["city center"%string].


Definition trip_solo : TripInput :=
  mkTripInput "Ifrane, Morocco" "2024-01-10" "2024-01-12" 1 70 "relaxed"
    [] [] [].

End SampleMore.

Local Open Scope Q_scope.

(** * Running the model *)

Example date_parses :
  Date.fromisoformat "2024-01-10" = Some (Date.mkDate 2024 1 10).
Proof. reflexivity. Qed.

Example date_rejects_bad_day :
  Date.fromisoformat "2023-02-29" = None /\ Date.fromisoformat "2024-1-10" = None.
Proof. split; reflexivity. Qed.

Example date_steps_over_leap_day :
  option_map Date.isoformat
    (d <- Date.fromisoformat "2024-02-27" ;; Date.add_days d 3)
  = Some "2024-03-01"%string.
Proof. reflexivity. Qed.

Example date_last_ordinal :
  option_map Date.toordinal (Date.fromisoformat "9999-12-31")
  = Some Date.MAXORDINAL.
Proof. reflexivity. Qed.

Example nights_of_reversed_dates :
  nights_between "2024-01-12" "2024-01-10" = Some 1%Z.
Proof. reflexivity. Qed.

Example strip_and_lower :
  Str.strip (Str.lower "  Relaxed ") = "relaxed"%string.
Proof. reflexivity. Qed.

Example format_examples :
  Fmt.format_f 2.5 0 = "2"%string /\ Fmt.format_f 3.5 0 = "4"%string
  /\ Fmt.format_f 0.6 1 = "0.6"%string /\ Fmt.format_f 1234.5678 2 = "1234.57"%string.
Proof. repeat split; vm_compute; reflexivity. Qed.

Example amenities_default : amenities_score ["wifi"%string] [] = 0.7.
Proof. reflexivity. Qed.

Example budget_fit_of_first_listing : budget_fit_score 65 70 == 0.85 + 0.15 * (5 / 70).
Proof. vm_compute. reflexivity. Qed.

Example explanation_of_first_listing :
  option_map
    (fun sp => @explain_listing Sample.runtime
                 (nth 0 MOCK_LISTINGS (mkStayListing "" "" "" "" 0 0 0 [] "" 0 ""))
                 Sample.trip_relaxed (snd sp))
    (@score_listing Sample.runtime
       (nth 0 MOCK_LISTINGS (mkStayListing "" "" "" "" 0 0 0 [] "" 0 ""))
       Sample.trip_relaxed)
  = Some [ "Within your nightly budget (65 ≤ 70)."%string;
           "Strong quality signals (rating 8.4 with 780 reviews)."%string;
           "Convenient location (~0.6 km to center)."%string ].
Proof. vm_compute. reflexivity. Qed.

Example sort_is_stable :
  sort_desc (fun p : Q * string => fst p)
    [(1, "a"); (2, "b"); (1, "c"); (2, "d"); (3, "e")]%string
  = [(3, "e"); (2, "b"); (2, "d"); (1, "a"); (1, "c")]%string.
Proof. reflexivity. Qed.

(** * Properties *)

(** ** Comparisons and [clamp] *)

Lemma Qlt_bool_iff (a b : Q) : PyNum.Qlt_bool a b = true <-> a < b.
Proof.
  unfold PyNum.Qlt_bool. rewrite negb_true_iff.
  split; intro H.
  - apply Qnot_le_lt. intro Hle. apply Qle_bool_iff in Hle. congruence.
  - apply not_true_is_false. intro Hle. apply Qle_bool_iff in Hle.
    apply Qlt_not_le in H. contradiction.
Qed.

Lemma Qlt_bool_false_iff (a b : Q) : PyNum.Qlt_bool a b = false <-> b <= a.
Proof.
  unfold PyNum.Qlt_bool. rewrite negb_false_iff. apply Qle_bool_iff.
Qed.

Lemma Qle_bool_false_iff (a b : Q) : Qle_bool a b = false <-> b < a.
Proof.
  rewrite <- Qlt_bool_iff. unfold PyNum.Qlt_bool.
  destruct (Qle_bool a b); simpl; intuition congruence.
Qed.

Lemma max_spec (a b : Q) :
  (a < b /\ PyNum.max a b = b) \/ (b <= a /\ PyNum.max a b = a).
Proof.
  unfold PyNum.max. destruct (PyNum.Qlt_bool a b) eqn:E.
  - left. split; [ apply Qlt_bool_iff, E | reflexivity ].
  - right. split; [ apply Qlt_bool_false_iff, E | reflexivity ].
Qed.

Lemma min_spec (a b : Q) :
  (b < a /\ PyNum.min a b = b) \/ (a <= b /\ PyNum.min a b = a).
Proof.
  unfold PyNum.min. destruct (PyNum.Qlt_bool b a) eqn:E.
  - left. split; [ apply Qlt_bool_iff, E | reflexivity ].
  - right. split; [ apply Qlt_bool_false_iff, E | reflexivity ].
Qed.

(** Splits every [max], [min] and comparison into its outcomes, as facts. *)
Ltac q_cases :=
  unfold clamp, PyNum.clamp in *;
  repeat match goal with
    | |- context [PyNum.max ?a ?b] =>
        let E := fresh "E" in
        destruct (max_spec a b) as [[? E] | [? E]]; rewrite E in *; clear E
    | |- context [PyNum.min ?a ?b] =>
        let E := fresh "E" in
        destruct (min_spec a b) as [[? E] | [? E]]; rewrite E in *; clear E
    | H : context [PyNum.max ?a ?b] |- _ =>
        let E := fresh "E" in
        destruct (max_spec a b) as [[? E] | [? E]]; rewrite E in *; clear E
    | H : context [PyNum.min ?a ?b] |- _ =>
        let E := fresh "E" in
        destruct (min_spec a b) as [[? E] | [? E]]; rewrite E in *; clear E
    | |- context [PyNum.Qlt_bool ?a ?b] =>
        let E := fresh "E" in
        destruct (PyNum.Qlt_bool a b) eqn:E;
        [ apply Qlt_bool_iff in E | apply Qlt_bool_false_iff in E ]
    | |- context [Qle_bool ?a ?b] =>
        let E := fresh "E" in
        destruct (Qle_bool a b) eqn:E;
        [ apply Qle_bool_iff in E | apply Qle_bool_false_iff in E ]
    end.

Lemma clamp_range (x lo hi : Q) : lo <= hi -> lo <= clamp x lo hi <= hi.
Proof.
  intro H. q_cases; lra.
Qed.

Lemma clamp_inside (x lo hi : Q) : lo <= x <= hi -> clamp x lo hi == x.
Proof.
  intro H. q_cases; lra.
Qed.

Lemma clamp_below (x lo hi : Q) : lo <= hi -> x <= lo -> clamp x lo hi == lo.
Proof.
  intros H H'. q_cases; lra.
Qed.

Lemma clamp_above (x lo hi : Q) : lo <= hi -> hi <= x -> clamp x lo hi == hi.
Proof.
  intros H H'. q_cases; lra.
Qed.

Lemma clamp_mono (x y lo hi : Q) : x <= y -> clamp x lo hi <= clamp y lo hi.
Proof.
  intro H. q_cases; lra.
Qed.

Lemma max_floor_pos (b : Q) : 0.000001 <= PyNum.max b 0.000001.
Proof. q_cases; lra. Qed.

Lemma max_floor_inactive (b : Q) : 0.000001 <= b -> PyNum.max b 0.000001 = b.
Proof.
  intro H. destruct (max_spec b 0.000001) as [[Hlt _] | [_ E]]; [ lra | exact E ].
Qed.

(** The divisions of [budget_fit_score] never raise. *)
Lemma budget_divisor_nonzero (a b : Q) :
  PyNum.div a (PyNum.max b 0.000001) = Some (a / PyNum.max b 0.000001).
Proof.
  unfold PyNum.div.
  destruct (Qeq_bool (PyNum.max b 0.000001) 0) eqn:E; [ | reflexivity ].
  apply Qeq_bool_eq in E. pose proof (max_floor_pos b). lra.
Qed.

(** ** Budget fit *)


Lemma budget_fit_score_over (p b : Q) :
  0.000001 <= b -> b < p ->
  budget_fit_score p b = clamp (1.0 - 1.4 * ((p - b) / b)) 0.0 1.0.
Proof.
  intros Hb Hpb. unfold budget_fit_score.
  destruct (Qle_bool p b) eqn:E.
  { apply Qle_bool_iff in E. lra. }
  rewrite (max_floor_inactive b Hb). reflexivity.
Qed.




(** ** Sub-scores and the composite score *)

Lemma mem_In (x : string) (l : list string) : Str.mem x l = true <-> In x l.
Proof.
  unfold Str.mem. rewrite existsb_exists. split.
  - intros [y [Hy E]]. apply String.eqb_eq in E. subst. exact Hy.
  - intro H. exists x. split; [ exact H | apply String.eqb_refl ].
Qed.

Lemma mem_false_In (x : string) (l : list string) :
  Str.mem x l = false <-> ~ In x l.
Proof.
  rewrite <- mem_In. destruct (Str.mem x l); intuition congruence.
Qed.

Lemma clamp_unit (x : Q) : 0 <= clamp x 0.0 1.0 <= 1.
Proof. pose proof (clamp_range x 0.0 1.0). lra. Qed.


Section ScoreFacts.
Context {RT : Runtime}.

Lemma normalize_rating_range (pf : string) (r : Q) :
  0 <= normalize_rating pf r <= 1.
Proof. unfold normalize_rating. apply clamp_unit. Qed.




Lemma location_score_defined (d : Q) :
  0 <= d ->
  exists loc, location_score d = Some loc /\ 0 <= loc <= 1.
Proof.
  intro Hd. unfold location_score, PyNum.div.
  destruct (Qeq_bool (1.0 + 0.35 * d) 0) eqn:E.
  - apply Qeq_bool_eq in E. lra.
  - simpl. eexists. split; [ reflexivity | apply clamp_unit ].
Qed.

(** The bonus is [0.12] exactly when some preferred area equals the
    listing's area after lowercasing both. *)
Lemma area_bonus_spec (a : string) (prefer : list string) :
  ((exists p, In p prefer /\ Str.lower p = Str.lower a)
   /\ area_bonus a prefer = 0.12)
  \/ (~ (exists p, In p prefer /\ Str.lower p = Str.lower a)
      /\ area_bonus a prefer = 0.0).
Proof.
  unfold area_bonus. destruct prefer as [ | p0 r ].
  - right. split; [ intros [p [[] _]] | reflexivity ].
  - destruct (Str.mem (Str.lower a) (map Str.lower (p0 :: r))) eqn:E.
    + left. split; [ | reflexivity ].
      apply mem_In in E. apply in_map_iff in E.
      destruct E as [p [Hp Hin]]. exists p. split; assumption.
    + right. split; [ | reflexivity ].
      apply mem_false_In in E. intros [p [Hin Hp]]. apply E.
      rewrite <- Hp. apply in_map. exact Hin.
Qed.


End ScoreFacts.


(** ** Calendar dates *)

Lemma Zmax_spec (a b : Z) : PyNum.Zmax a b = Z.max a b.
Proof. unfold PyNum.Zmax. destruct (Z.ltb_spec a b); lia. Qed.

Module DateFacts.
Import Date.
Local Open Scope Z_scope.

Lemma days_before_year_next (y : Z) :
  days_before_year (y + 1)
  = days_before_year y + 365 + (if is_leap y then 1 else 0).
Proof.
  unfold days_before_year, is_leap.
  replace (y + 1 - 1) with (y - 1 + 1) by lia.
  destruct (Z.eqb_spec (y mod 4) 0), (Z.eqb_spec (y mod 100) 0),
           (Z.eqb_spec (y mod 400) 0); simpl;
    Z.div_mod_to_equations; lia.
Qed.

Lemma days_before_year_mono (y z : Z) :
  y <= z -> days_before_year y <= days_before_year z.
Proof.
  intro H. unfold days_before_year. Z.div_mod_to_equations. lia.
Qed.

Lemma days_before_year_first : days_before_year 1 = 0.
Proof. reflexivity. Qed.

Lemma days_before_year_last : days_before_year 10000 = MAXORDINAL.
Proof. reflexivity. Qed.

Lemma day_of_year_range (y m d : Z) :
  1 <= m <= 12 -> 1 <= d <= days_in_month y m ->
  1 <= days_before_month y m + d <= 365 + (if is_leap y then 1 else 0).
Proof.
  intros Hm Hd. unfold days_before_month, days_in_month in *.
  assert (Hcases : m = 1 \/ m = 2 \/ m = 3 \/ m = 4 \/ m = 5 \/ m = 6 \/ m = 7
                   \/ m = 8 \/ m = 9 \/ m = 10 \/ m = 11 \/ m = 12) by lia.
  destruct (is_leap y);
    repeat (destruct Hcases as [-> | Hcases]); try subst m;
    repeat match goal with
      | H : context [Z.to_nat ?k] |- _ =>
          let v := eval vm_compute in (Z.to_nat k) in
          change (Z.to_nat k) with v in *
      end;
    unfold DAYS_BEFORE_MONTH in *;
    cbn [nth Z.eqb Z.ltb Z.compare Pos.compare Pos.compare_cont Pos.eqb
         andb orb negb] in *;
    lia.
Qed.

Lemma make_range (y m d : Z) (dt : date) :
  make y m d = Some dt -> 1 <= toordinal dt <= MAXORDINAL.
Proof.
  unfold make. intro H.
  destruct ((1 <=? y) && (y <=? 9999) && (1 <=? m) && (m <=? 12)
            && (1 <=? d) && (d <=? days_in_month y m)) eqn:E;
    [ | discriminate ].
  injection H as <-.
  repeat rewrite andb_true_iff in E.
  destruct E as [[[[[Hy1 Hy2] Hm1] Hm2] Hd1] Hd2].
  apply Z.leb_le in Hy1, Hy2, Hm1, Hm2, Hd1, Hd2.
  unfold toordinal, ymd2ord. simpl.
  pose proof (day_of_year_range y m d (conj Hm1 Hm2) (conj Hd1 Hd2)) as Hdoy.
  pose proof (days_before_year_next y) as Hnext.
  pose proof (days_before_year_mono 1 y Hy1) as Hlo.
  pose proof (days_before_year_mono (y + 1) 10000 ltac:(lia)) as Hhi.
  rewrite days_before_year_first in Hlo.
  rewrite days_before_year_last in Hhi.
  lia.
Qed.

(** Every date that parses lies between 0001-01-01 and 9999-12-31. *)
Lemma fromisoformat_range (s : string) (dt : date) :
  fromisoformat s = Some dt -> 1 <= toordinal dt <= MAXORDINAL.
Proof.
  unfold fromisoformat. intro H.
  destruct (list_ascii_of_string s) as [ | y1 [ | y2 [ | y3 [ | y4 [ | s1
    [ | m1 [ | m2 [ | s2 [ | d1 [ | d2 [ | ? ?]]]]]]]]]]]; try discriminate.
  destruct (Ascii.eqb s1 "-" && Ascii.eqb s2 "-")%bool; [ | discriminate ].
  destruct (digits 0 [y1; y2; y3; y4]) as [y | ]; [ | discriminate ].
  destruct (digits 0 [m1; m2]) as [m | ]; [ | discriminate ].
  destruct (digits 0 [d1; d2]) as [d | ]; [ | discriminate ].
  simpl in H. eapply make_range. exact H.
Qed.

(** Stepping forward from a parsed date by fewer days than separate it
    from a later parsed date stays inside the calendar. *)
Lemma add_days_defined (s e : string) (a b : date) (i : Z) :
  fromisoformat s = Some a -> fromisoformat e = Some b ->
  0 <= i < Z.max 1 (days_between a b) ->
  exists d, add_days a i = Some d.
Proof.
  intros Ha Hb Hi.
  apply fromisoformat_range in Ha. apply fromisoformat_range in Hb.
  unfold add_days, days_between in *.
  destruct ((0 <? toordinal a + i) && (toordinal a + i <=? MAXORDINAL)) eqn:E.
  - eexists. reflexivity.
  - apply andb_false_iff in E. destruct E as [E | E].
    + apply Z.ltb_ge in E. lia.
    + apply Z.leb_gt in E. lia.
Qed.

End DateFacts.

(** ** The error monad over lists *)

Lemma mapM_Forall2 {A B : Type} (f : A -> option B) (l : list A) (l' : list B) :
  mapM f l = Some l' -> Forall2 (fun a b => f a = Some b) l l'.
Proof.
  revert l'. induction l as [ | a r IH]; simpl; intros l' H.
  - injection H as <-. constructor.
  - destruct (f a) as [b | ] eqn:Ea; simpl in H; [ | discriminate ].
    destruct (mapM f r) as [bs | ]; simpl in H; [ | discriminate ].
    injection H as <-. constructor; [ exact Ea | apply IH; reflexivity ].
Qed.

Lemma mapM_defined {A B : Type} (f : A -> option B) (l : list A) :
  (forall a, In a l -> exists b, f a = Some b) ->
  exists l', mapM f l = Some l'.
Proof.
  induction l as [ | a r IH]; simpl; intro H.
  - eexists. reflexivity.
  - destruct (H a (or_introl eq_refl)) as [b ->].
    destruct IH as [bs ->]; [ intros; apply H; right; assumption | ].
    eexists. reflexivity.
Qed.

Lemma mapM_total {A B : Type} (f : A -> option B) (g : A -> B) (l : list A) :
  (forall a, In a l -> f a = Some (g a)) -> mapM f l = Some (map g l).
Proof.
  induction l as [ | a r IH]; simpl; intro H; [ reflexivity | ].
  rewrite (H a (or_introl eq_refl)). simpl.
  rewrite IH; [ reflexivity | intros; apply H; right; assumption ].
Qed.

Lemma range_length (n : Z) : (0 <= n)%Z -> Z.of_nat (List.length (range n)) = n.
Proof. intro H. unfold range. rewrite length_map, length_seq. lia. Qed.

Lemma range_In (n i : Z) : In i (range n) <-> (0 <= i < n)%Z.
Proof.
  unfold range. rewrite in_map_iff. split.
  - intros [k [<- Hk]]. apply in_seq in Hk. lia.
  - intro H. exists (Z.to_nat i). split; [ lia | apply in_seq; lia ].
Qed.

Lemma range_nth_error (n : Z) (k : nat) (i : Z) :
  nth_error (range n) k = Some i -> i = Z.of_nat k.
Proof.
  unfold range. rewrite nth_error_map. intro H.
  destruct (nth_error (seq 0 (Z.to_nat n)) k) as [j | ] eqn:E; [ | discriminate ].
  injection H as <-.
  assert (Hk : (k < List.length (seq 0 (Z.to_nat n)))%nat).
  { apply nth_error_Some. congruence. }
  rewrite length_seq in Hk.
  rewrite (nth_error_nth' _ 0%nat) in E by (rewrite length_seq; exact Hk).
  rewrite seq_nth in E by exact Hk. injection E as <-. reflexivity.
Qed.

(** ** Rounding *)

Lemma round_half_even_int (y : Q) (z : Z) :
  y == inject_Z z -> PyNum.round_half_even y = z.
Proof.
  intro H. unfold PyNum.round_half_even.
  rewrite (Qfloor_comp _ _ H), Qfloor_Z.
  assert (E : Qcompare (y - inject_Z z) (1 # 2) = Lt).
  { rewrite <- Qlt_alt. lra. }
  rewrite E. reflexivity.
Qed.

Lemma pow10_pos (n : nat) : (0 < PyNum.pow10 n)%Z.
Proof. unfold PyNum.pow10. apply Z.pow_pos_nonneg; lia. Qed.

Lemma pow10_Qpos (n : nat) : 0 < inject_Z (PyNum.pow10 n).
Proof.
  assert (H : inject_Z 0 < inject_Z (PyNum.pow10 n)).
  { rewrite <- Zlt_Qlt. apply pow10_pos. }
  exact H.
Qed.

(** Rounding an integer-valued float to any number of decimals returns it. *)
Lemma round_int_valued (x : Q) (z : Z) (nd : nat) :
  x == inject_Z z -> PyNum.round x nd == inject_Z z.
Proof.
  intro H. unfold PyNum.round.
  pose proof (pow10_Qpos nd) as Hp.
  rewrite (round_half_even_int _ (z * PyNum.pow10 nd)).
  - rewrite inject_Z_mult. field. lra.
  - rewrite H, inject_Z_mult. reflexivity.
Qed.

Lemma round_half_even_mono (x y : Q) :
  x <= y -> (PyNum.round_half_even x <= PyNum.round_half_even y)%Z.
Proof.
  intro H. unfold PyNum.round_half_even.
  pose proof (Qfloor_resp_le x y H) as Hf.
  pose proof (Qfloor_le x) as Hx1. pose proof (Qlt_floor x) as Hx2.
  pose proof (Qfloor_le y) as Hy1. pose proof (Qlt_floor y) as Hy2.
  rewrite inject_Z_plus in Hx2, Hy2.
  destruct (Z.eq_dec (Qfloor x) (Qfloor y)) as [E | E].
  - rewrite <- E in *.
    destruct (Qcompare (x - inject_Z (Qfloor x)) (1 # 2)) eqn:Cx;
      destruct (Qcompare (y - inject_Z (Qfloor x)) (1 # 2)) eqn:Cy;
      try rewrite <- Qeq_alt in *; try rewrite <- Qlt_alt in *;
      try rewrite <- Qgt_alt in *;
      destruct (Z.even (Qfloor x)); try lia; exfalso; lra.
  - assert (Hlt : (Qfloor x + 1 <= Qfloor y)%Z) by lia.
    destruct (Qcompare (x - inject_Z (Qfloor x)) (1 # 2));
      destruct (Qcompare (y - inject_Z (Qfloor y)) (1 # 2));
      destruct (Z.even (Qfloor x)); destruct (Z.even (Qfloor y)); lia.
Qed.

(** [round(x, n)] is monotone in [x]. *)
Lemma round_mono (x y : Q) (nd : nat) :
  x <= y -> PyNum.round x nd <= PyNum.round y nd.
Proof.
  intro H. unfold PyNum.round.
  pose proof (pow10_Qpos nd) as Hq.
  apply Qmult_le_compat_r.
  - rewrite <- Zle_Qle. apply round_half_even_mono.
    apply Qmult_le_compat_r; [ exact H | lra ].
  - apply Qlt_le_weak, Qinv_lt_0_compat, Hq.
Qed.

Lemma sum_from (l : list Z) (acc : Z) :
  fold_left Qplus (map inject_Z l) (inject_Z acc)
  == inject_Z (fold_left Z.add l acc).
Proof.
  revert acc. induction l as [ | k r IH]; intro acc; simpl.
  - reflexivity.
  - rewrite <- IH. rewrite inject_Z_plus. reflexivity.
Qed.

Lemma sum_of_ints (l : list Z) :
  PyNum.sum (map inject_Z l) == inject_Z (fold_left Z.add l 0%Z).
Proof. unfold PyNum.sum. apply (sum_from l 0%Z). Qed.

(** ** Itinerary *)



Section ItineraryFacts.
Variable trip : TripInput.
Variables a b : Date.date.
Hypothesis Hstart : parse_date (start_date trip) = Some a.
Hypothesis Hend : parse_date (end_date trip) = Some b.

Let n_days := Z.max 1 (Date.days_between a b).
Let style_ := Str.strip (Str.lower (style trip)).
Let base_pp := dict_get base_pp_table style_ 40%Z.

(** What the loop body builds on day [i], apart from the date. *)
Lemma itinerary_day_run (i : Z) :
  (0 <= i < n_days)%Z ->
  exists d,
    Date.add_days a i = Some d
    /\ itinerary_day trip a style_ base_pp i
       = Some (mkItineraryDay (Date.isoformat d)
                 (dict_get morning_opts style_ "Town center walk + scenic stop"%string)
                 (dict_get afternoon_opts style_ "Lunch + one planned activity"%string)
                 (dict_get evening_opts style_ "Dinner + optional stroll"%string)
                 (inject_Z ((base_pp + (i mod 3) * 3) * travelers trip))).
Proof.
  intro Hi.
  destruct (DateFacts.add_days_defined _ _ a b i Hstart Hend Hi) as [d Hd].
  exists d. split; [ exact Hd | ].
  unfold itinerary_day. rewrite Hd. reflexivity.
Qed.

Lemma generate_itinerary_run :
  exists days_,
    generate_itinerary trip
    = Some (mkItineraryResponse (destination trip) days_
              (PyNum.round (PyNum.sum (map est_cost days_)) 2) itinerary_notes)
    /\ Forall2 (fun i d => itinerary_day trip a style_ base_pp i = Some d)
               (range n_days) days_.
Proof.
  destruct (mapM_defined (itinerary_day trip a style_ base_pp) (range n_days))
    as [days_ Hdays].
  { intros i Hi. apply range_In in Hi.
    destruct (itinerary_day_run i Hi) as [d [_ Hd]]. eexists. exact Hd. }
  exists days_. split.
  - unfold generate_itinerary. rewrite Hstart, Hend. simpl.
    rewrite Zmax_spec. fold n_days style_ base_pp. rewrite Hdays. reflexivity.
  - apply mapM_Forall2. exact Hdays.
Qed.

Lemma generate_itinerary_nth (days_ : list ItineraryDay) (k : nat) (day : ItineraryDay) :
  Forall2 (fun i d => itinerary_day trip a style_ base_pp i = Some d)
          (range n_days) days_ ->
  nth_error days_ k = Some day ->
  (0 <= Z.of_nat k < n_days)%Z
  /\ itinerary_day trip a style_ base_pp (Z.of_nat k) = Some day.
Proof.
  intros HF Hk.
  assert (Hi : exists i, nth_error (range n_days) k = Some i
                         /\ itinerary_day trip a style_ base_pp i = Some day).
  { clear - HF Hk. revert k Hk.
    induction HF as [ | i d r r' Hd _ IH]; intros [ | k] Hk; simpl in *;
      try discriminate.
    - injection Hk as <-. exists i. split; [ reflexivity | exact Hd ].
    - apply IH. exact Hk. }
  destruct Hi as [i [Hi Hd]].
  pose proof (range_nth_error _ _ _ Hi) as ->.
  split; [ | exact Hd ].
  apply range_In. eapply nth_error_In. exact Hi.
Qed.

Lemma generate_itinerary_In (days_ : list ItineraryDay) (day : ItineraryDay) :
  Forall2 (fun i d => itinerary_day trip a style_ base_pp i = Some d)
          (range n_days) days_ ->
  In day days_ ->
  exists i, (0 <= i < n_days)%Z
            /\ itinerary_day trip a style_ base_pp i = Some day.
Proof.
  intros HF Hin. apply In_nth_error in Hin. destruct Hin as [k Hk].
  exists (Z.of_nat k). eapply generate_itinerary_nth; eassumption.
Qed.


End ItineraryFacts.


Section ItineraryCosts.
Variable trip : TripInput.
Variables a b : Date.date.
Hypothesis Hstart : parse_date (start_date trip) = Some a.
Hypothesis Hend : parse_date (end_date trip) = Some b.

(** The cost of every generated day, by its index. *)
Lemma generate_itinerary_costs :
  exists resp,
    generate_itinerary trip = Some resp
    /\ map est_cost (days resp)
       = map inject_Z
           (map (fun i =>
                   ((dict_get base_pp_table (Str.strip (Str.lower (style trip))) 40
                     + (i mod 3) * 3) * travelers trip)%Z)
                (range (Z.max 1 (Date.days_between a b))))
    /\ total_est_cost resp = PyNum.round (PyNum.sum (map est_cost (days resp))) 2.
Proof.
  destruct (generate_itinerary_run trip a b Hstart Hend) as [days_ [Hrun HF]].
  eexists. split; [ exact Hrun | ]. simpl. split; [ | reflexivity ].
  clear Hrun.
  assert (Hin : forall i, In i (range (Z.max 1 (Date.days_between a b))) ->
                          (0 <= i < Z.max 1 (Date.days_between a b))%Z).
  { intros i Hi. apply range_In. exact Hi. }
  revert HF Hin. generalize (range (Z.max 1 (Date.days_between a b))).
  intros l HF. induction HF as [ | i d r r' Hd _ IH]; intro Hin; simpl.
  - reflexivity.
  - f_equal.
    + destruct (itinerary_day_run trip a b Hstart Hend i (Hin i (or_introl eq_refl)))
        as [d' [_ Hd']].
      rewrite Hd' in Hd. injection Hd as <-. reflexivity.
    + apply IH. intros j Hj. apply Hin. right. exact Hj.
Qed.

End ItineraryCosts.



(** C9: every per-day estimated cost is the float of an integer, rounding
    it to two decimals returns it, and the total is exactly the sum of the
    unrounded integer day costs. *)
Theorem itinerary_costs_are_integers (trip : TripInput) (a b : Date.date) :
  parse_date (start_date trip) = Some a ->
  parse_date (end_date trip) = Some b ->
  exists resp ks,
    generate_itinerary trip = Some resp
    /\ ks = map (fun i =>
                   ((dict_get base_pp_table (Str.strip (Str.lower (style trip))) 40
                     + (i mod 3) * 3) * travelers trip)%Z)
                (range (Z.max 1 (Date.days_between a b)))
    /\ map est_cost (days resp) = map PyNum.float (map (fun k => PyNum.round_int k 2) ks)
    /\ map est_cost (days resp) = map inject_Z ks
    /\ (forall day, In day (days resp) -> PyNum.round (est_cost day) 2 == est_cost day)
    /\ total_est_cost resp == PyNum.sum (map est_cost (days resp))
    /\ total_est_cost resp == inject_Z (fold_left Z.add ks 0%Z).
Proof.
  intros Hstart Hend.
  destruct (generate_itinerary_costs trip a b Hstart Hend) as [resp [Hrun [Hc Ht]]].
  exists resp. eexists. split; [ exact Hrun | ]. split; [ reflexivity | ].
  set (ks := map _ (range _)) in *.
  assert (Hsum : PyNum.sum (map est_cost (days resp))
                 == inject_Z (fold_left Z.add ks 0%Z)).
  { rewrite Hc. apply sum_of_ints. }
  split; [ | split; [ exact Hc | split; [ | split ] ] ].
  - rewrite Hc. unfold PyNum.float, PyNum.round_int. rewrite map_map.
    reflexivity.
  - intros day Hin.
    assert (Hk : exists k, est_cost day = inject_Z k).
    { apply (in_map est_cost) in Hin. rewrite Hc in Hin.
      apply in_map_iff in Hin. destruct Hin as [k [E _]]. exists k. congruence. }
    destruct Hk as [k ->]. apply round_int_valued. reflexivity.
  - rewrite Ht. rewrite (round_int_valued _ _ 2 Hsum). symmetry. exact Hsum.
  - rewrite Ht. apply round_int_valued. exact Hsum.
Qed.

Lemma itinerary_costs_are_integers_witness :
  exists resp,
    generate_itinerary Sample.trip_relaxed = Some resp
    /\ total_est_cost resp == inject_Z 126.
Proof.
  destruct (itinerary_costs_are_integers Sample.trip_relaxed
              (Date.mkDate 2024 1 10) (Date.mkDate 2024 1 12) eq_refl eq_refl)
    as [resp [ks [H1 [Hks [_ [_ [_ [_ H2]]]]]]]].
  exists resp. split; [ exact H1 | ].
  rewrite H2, Hks. reflexivity.
Defined.

(** ** Listing catalog and provider fallback *)

Section FetchFacts.
Context {RT : Runtime} {PV : Providers}.
Variable trip : TripInput.

Lemma truthy_Some (v : option string) :
  truthy v = true <-> exists s, v = Some s /\ s <> ""%string.
Proof.
  destruct v as [s | ]; simpl.
  - rewrite negb_true_iff. split.
    + intro H. exists s. split; [ reflexivity | ].
      intro E. subst. discriminate.
    + intros [s' [E Hs]]. injection E as <-.
      destruct (String.eqb_spec s ""); [ contradiction | reflexivity ].
  - split; [ discriminate | intros [s [E _]]; discriminate ].
Qed.

(** The Booking search runs exactly when both of its variables are set
    and not empty. *)
Lemma booking_listings_spec :
  (exists tok aff,
      getenv "BOOKING_DEMAND_TOKEN" = Some tok /\ tok <> ""%string
      /\ getenv "BOOKING_AFFILIATE_ID" = Some aff /\ aff <> ""%string
      /\ booking_listings trip
         = booking_search_stays tok aff
             (mkBookingSearchRequest (destination trip) (start_date trip)
                (end_date trip) (travelers trip)))
  \/ ((truthy (getenv "BOOKING_DEMAND_TOKEN") = false
       \/ truthy (getenv "BOOKING_AFFILIATE_ID") = false)
      /\ booking_listings trip = []).
Proof.
  unfold booking_listings.
  destruct (getenv "BOOKING_DEMAND_TOKEN") as [tok | ] eqn:Et;
    [ | right; split; [ left; reflexivity | reflexivity ] ].
  destruct (getenv "BOOKING_AFFILIATE_ID") as [aff | ] eqn:Ea;
    [ | right; split; [ right; reflexivity | reflexivity ] ].
  destruct (truthy (Some tok)) eqn:Tt;
    [ | right; split; [ left; reflexivity | reflexivity ] ].
  destruct (truthy (Some aff)) eqn:Ta;
    [ | right; split; [ right; reflexivity | reflexivity ] ].
  left. exists tok, aff.
  apply truthy_Some in Tt. destruct Tt as [t [E Ht]]. injection E as <-.
  apply truthy_Some in Ta. destruct Ta as [t' [E Ha]]. injection E as <-.
  repeat split; assumption || reflexivity.
Qed.

Lemma airbnb_listings_spec :
  (exists tok,
      getenv "AIRBNB_PARTNER_TOKEN" = Some tok /\ tok <> ""%string
      /\ airbnb_listings trip
         = airbnb_search_stays tok
             (mkAirbnbSearchRequest (destination trip) (start_date trip)
                (end_date trip) (travelers trip)))
  \/ (truthy (getenv "AIRBNB_PARTNER_TOKEN") = false
      /\ airbnb_listings trip = []).
Proof.
  unfold airbnb_listings.
  destruct (getenv "AIRBNB_PARTNER_TOKEN") as [tok | ] eqn:Et;
    [ | right; split; reflexivity ].
  destruct (truthy (Some tok)) eqn:Tt; [ | right; split; reflexivity ].
  left. exists tok.
  apply truthy_Some in Tt. destruct Tt as [t [E Ht]]. injection E as <-.
  repeat split; assumption || reflexivity.
Qed.


End FetchFacts.

(** With the clients of [src/providers], the catalog is always the
    built-in one, whatever the credentials. *)
Lemma fetch_listings_stub {RT : Runtime} (trip : TripInput) :
  @fetch_listings RT stub_providers trip = MOCK_LISTINGS.
Proof.
  unfold fetch_listings.
  destruct (@booking_listings_spec RT stub_providers trip)
    as [[tok [aff [_ [_ [_ [_ ->]]]]]] | [_ ->]];
    destruct (@airbnb_listings_spec RT stub_providers trip)
      as [[tok' [_ [_ ->]]] | [_ ->]];
    reflexivity.
Qed.


(** ** Explanations *)

Section ExplainFacts.
Context {RT : Runtime}.


End ExplainFacts.

(** ** The stable descending sort *)

Section SortFacts.
Context {A : Type}.
Variable key : A -> Q.


Lemma insert_desc_perm (x : A) (l : list A) :
  Permutation (insert_desc key x l) (x :: l).
Proof.
  induction l as [ | y r IH]; simpl.
  - apply Permutation_refl.
  - destruct (PyNum.Qlt_bool (key x) (key y)).
    + eapply perm_trans; [ apply perm_skip, IH | apply perm_swap ].
    + apply Permutation_refl.
Qed.

Lemma sort_desc_perm (l : list A) : Permutation (sort_desc key l) l.
Proof.
  induction l as [ | x r IH]; simpl.
  - apply perm_nil.
  - eapply perm_trans; [ apply insert_desc_perm | apply perm_skip, IH ].
Qed.

Lemma sort_desc_length (l : list A) :
  List.length (sort_desc key l) = List.length l.
Proof. apply Permutation_length, sort_desc_perm. Qed.





End SortFacts.


Lemma firstn_In {A : Type} (n : nat) (l : list A) (x : A) :
  In x (firstn n l) -> In x l.
Proof.
  revert l. induction n as [ | n IH]; intros [ | y r]; simpl; try tauto.
  intros [E | H]; [ left; exact E | right; apply IH, H ].
Qed.





(** ** Recommendations *)


Section RecommendFacts.
Context {RT : Runtime} {PV : Providers}.
Variable trip : TripInput.

(** The sort key, the listing and the nights of [recommend_stays]. *)
Let key (e : Q * StayListing * ScoreBreakdown) : Q := fst (fst e).
Let entry_listing (e : Q * StayListing * ScoreBreakdown) : StayListing := snd (fst e).

Lemma score_entry_inv (l : StayListing) (e : Q * StayListing * ScoreBreakdown) :
  score_entry trip l = Some e ->
  entry_listing e = l /\ score_listing l trip = Some (key e, snd e).
Proof.
  unfold score_entry. destruct (score_listing l trip) as [[sc parts] | ];
    simpl; [ | discriminate ].
  intro H. injection H as <-. split; reflexivity.
Qed.

Lemma scored_listings (ls : list StayListing)
    (scored : list (Q * StayListing * ScoreBreakdown)) :
  mapM (score_entry trip) ls = Some scored ->
  map entry_listing scored = ls
  /\ forall e, In e scored ->
       score_listing (entry_listing e) trip = Some (key e, snd e).
Proof.
  intro H. apply mapM_Forall2 in H.
  induction H as [ | l e r r' He _ [IH1 IH2]]; simpl.
  - split; [ reflexivity | intros e [] ].
  - apply score_entry_inv in He. destruct He as [El Es].
    split; [ rewrite El, IH1; reflexivity | ].
    intros e' [<- | Hin]; [ rewrite El; exact Es | apply IH2, Hin ].
Qed.

(** What a successful run computed. *)
Lemma recommend_stays_run (resp : StaysResponse) :
  recommend_stays trip = Some resp ->
  exists n scored,
    nights_between (start_date trip) (end_date trip) = Some n
    /\ mapM (score_entry trip) (surviving_listings trip) = Some scored
    /\ recommendations resp
       = map (recommendation trip n) (firstn 10 (sort_desc key scored)).
Proof.
  unfold recommend_stays. intro H.
  destruct (nights_between (start_date trip) (end_date trip)) as [n | ];
    simpl in H; [ | discriminate ].
  destruct (mapM (score_entry trip) (surviving_listings trip)) as [scored | ];
    simpl in H; [ | discriminate ].
  injection H as <-. exists n, scored. repeat split; reflexivity.
Qed.

Lemma recommend_stays_defined (a b : Date.date) :
  parse_date (start_date trip) = Some a ->
  parse_date (end_date trip) = Some b ->
  (forall l, In l (surviving_listings trip) -> 0 <= distance_km_to_center l) ->
  exists resp, recommend_stays trip = Some resp.
Proof.
  intros Ha Hb Hd. unfold recommend_stays, nights_between.
  rewrite Ha, Hb. simpl.
  destruct (mapM_defined (score_entry trip) (surviving_listings trip))
    as [scored ->].
  - intros l Hl. unfold score_entry, score_listing.
    destruct (location_score_defined _ (Hd l Hl)) as [loc [-> _]].
    eexists. reflexivity.
  - eexists. reflexivity.
Qed.

Lemma recommendation_listing (n : Z) (e : Q * StayListing * ScoreBreakdown) :
  listing (recommendation trip n e) = entry_listing e.
Proof. destruct e as [[sc l] parts]. reflexivity. Qed.


Lemma recommended_listings (resp : StaysResponse) :
  recommend_stays trip = Some resp ->
  exists scored,
    map entry_listing scored = surviving_listings trip
    /\ map listing (recommendations resp)
       = map entry_listing (firstn 10 (sort_desc key scored)).
Proof.
  intro H. destruct (recommend_stays_run resp H) as [n [scored [_ [Hs ->]]]].
  exists scored. split; [ apply (scored_listings _ _ Hs) | ].
  rewrite map_map. apply map_ext. intro e. apply recommendation_listing.
Qed.

(** Every recommended listing passed the dealbreaker filter. *)
Lemma recommended_survived (resp : StaysResponse) (l : StayListing) :
  recommend_stays trip = Some resp ->
  In l (map listing (recommendations resp)) ->
  In l (fetch_listings trip)
  /\ dealbreaker_ok (room_type l) (dealbreakers trip) = true.
Proof.
  intros H Hin. destruct (recommended_listings resp H) as [scored [Hs Hr]].
  rewrite Hr in Hin. apply in_map_iff in Hin. destruct Hin as [e [<- He]].
  apply firstn_In in He.
  apply (Permutation_in _ (sort_desc_perm key scored)) in He.
  apply (in_map entry_listing) in He. rewrite Hs in He.
  unfold surviving_listings in He. apply filter_In in He. exact He.
Qed.

(** With at most ten survivors, every survivor is recommended. *)
Lemma survivors_recommended (resp : StaysResponse) (l : StayListing) :
  recommend_stays trip = Some resp ->
  (List.length (surviving_listings trip) <= 10)%nat ->
  In l (surviving_listings trip) ->
  In l (map listing (recommendations resp)).
Proof.
  intros H Hlen Hin. destruct (recommended_listings resp H) as [scored [Hs Hr]].
  rewrite Hr, firstn_all2.
  - rewrite <- Hs in Hin. apply in_map_iff in Hin. destruct Hin as [e [<- He]].
    apply in_map.
    apply (Permutation_in _ (Permutation_sym (sort_desc_perm key scored))), He.
  - rewrite sort_desc_length, <- (length_map entry_listing), Hs. exact Hlen.
Qed.

End RecommendFacts.

Section RankingClaims.
Context {RT : Runtime} {PV : Providers}.
Variable trip : TripInput.


(** C1 (amended): a listing whose room type is exactly ["shared_room"] or
    ["private_room"], and whose room type is among the lowercased
    dealbreakers of the trip, is in no recommendation. *)
Theorem dealbreaker_rooms_never_recommended (l : StayListing) (resp : StaysResponse) :
  room_type l = "shared_room"%string \/ room_type l = "private_room"%string ->
  In (room_type l) (map Str.lower (dealbreakers trip)) ->
  recommend_stays trip = Some resp ->
  ~ In l (map listing (recommendations resp)).
Proof.
  intros Hroom Hdb H Hin.
  destruct (recommended_survived trip resp l H Hin) as [_ Hok].
  apply mem_In in Hdb. unfold dealbreaker_ok in Hok.
  destruct Hroom as [E | E]; rewrite E in *; rewrite Hdb in Hok; simpl in Hok.
  - discriminate.
  - destruct (Str.mem "shared_room" (map Str.lower (dealbreakers trip)));
      discriminate.
Qed.

(** C10: the dealbreaker tags are lowercased and the room type is compared
    as it is; a listing whose room type is not literally ["shared_room"] or
    ["private_room"] passes the filter whatever the dealbreakers are, stays
    among the surviving listings, and is recommended when at most ten
    listings survive.  So does ["Shared_Room"] against the dealbreaker
    ["shared_room"], while ["shared_room"] is refused by ["SHARED_ROOM"]. *)
Theorem dealbreaker_ok_exact_room_type :
  (forall l,
      room_type l <> "shared_room"%string ->
      room_type l <> "private_room"%string ->
      dealbreaker_ok (room_type l) (dealbreakers trip) = true
      /\ (In l (fetch_listings trip) -> In l (surviving_listings trip))
      /\ (forall resp,
            recommend_stays trip = Some resp ->
            (List.length (surviving_listings trip) <= 10)%nat ->
            In l (fetch_listings trip) ->
            In l (map listing (recommendations resp))))
  /\ dealbreaker_ok "Shared_Room" ["shared_room"%string] = true
  /\ dealbreaker_ok "shared_room" ["SHARED_ROOM"%string] = false.
Proof.
  split; [ | split; reflexivity ].
  intros l H1 H2.
  assert (Hok : dealbreaker_ok (room_type l) (dealbreakers trip) = true).
  { unfold dealbreaker_ok.
    destruct (String.eqb_spec (room_type l) "shared_room"); [ contradiction | ].
    destruct (String.eqb_spec (room_type l) "private_room"); [ contradiction | ].
    rewrite !andb_false_r. reflexivity. }
  assert (Hsurv : In l (fetch_listings trip) -> In l (surviving_listings trip)).
  { intro Hin. unfold surviving_listings. apply filter_In. split; assumption. }
  split; [ exact Hok | split; [ exact Hsurv | ] ].
  intros resp H Hlen Hin.
  apply (survivors_recommended trip resp l H Hlen), Hsurv, Hin.
Qed.

End RankingClaims.

(** C1, as stated, fails for the room types that the filter does not know:
    with ["entire_place"] as a dealbreaker, the catalog's chalet, an
    ["entire_place"], is still recommended. *)
Lemma entire_place_dealbreaker_still_recommended :
  exists resp l,
    @recommend_stays Sample.runtime stub_providers Sample.trip_no_entire_place
    = Some resp
    /\ id l = "bkg-ifr-002"%string
    /\ room_type l = "entire_place"%string
    /\ In (Str.lower (room_type l))
          (map Str.lower (dealbreakers Sample.trip_no_entire_place))
    /\ In l (map listing (recommendations resp)).
Proof.
  vm_compute. eexists. eexists (mkStayListing _ _ _ _ _ _ _ _ _ _ _).
  split; [ reflexivity | ].
  split; [ reflexivity | ]. split; [ reflexivity | ].
  split; [ left; reflexivity | ].
  do 3 right. left. reflexivity.
Qed.

Lemma sample_distances (trip : TripInput) (l : StayListing) :
  In l (@surviving_listings Sample.runtime stub_providers trip) ->
  0 <= distance_km_to_center l.
Proof.
  unfold surviving_listings. rewrite filter_In, fetch_listings_stub.
  intros [Hl _].
  repeat (destruct Hl as [<- | Hl]; [ vm_compute; discriminate | ]).
  destruct Hl.
Qed.

Lemma dealbreaker_rooms_never_recommended_witness :
  exists resp,
    @recommend_stays Sample.runtime stub_providers Sample.trip_no_private_room
    = Some resp
    /\ ~ In (nth 2 MOCK_LISTINGS (mkStayListing "" "" "" "" 0 0 0 [] "" 0 ""))
            (map listing (recommendations resp)).
Proof.
  destruct (@recommend_stays_defined Sample.runtime stub_providers
              Sample.trip_no_private_room
              (Date.mkDate 2024 1 10) (Date.mkDate 2024 1 12) eq_refl eq_refl
              (sample_distances _)) as [resp E].
  exists resp. split; [ exact E | ].
  apply (@dealbreaker_rooms_never_recommended Sample.runtime stub_providers
           Sample.trip_no_private_room).
  - right. reflexivity.
  - left. reflexivity.
  - exact E.
Defined.


Lemma dealbreaker_ok_exact_room_type_witness :
  dealbreaker_ok "hotel_room" ["hotel_room"%string] = true
  /\ In (nth 0 MOCK_LISTINGS (mkStayListing "" "" "" "" 0 0 0 [] "" 0 ""))
        (@surviving_listings Sample.runtime stub_providers
           Sample.trip_no_private_room).
Proof.
  destruct (@dealbreaker_ok_exact_room_type Sample.runtime stub_providers
              Sample.trip_no_private_room) as [H _].
  destruct (H (nth 0 MOCK_LISTINGS (mkStayListing "" "" "" "" 0 0 0 [] "" 0 "")))
    as [_ [H2 _]]; try (simpl; discriminate).
  split; [ reflexivity | ].
  apply H2. left. reflexivity.
Defined.

(** * Further properties of the scoring functions *)

(** ** Budget fit around and above the budget *)

Lemma budget_fit_score_at_budget (b : Q) :
  0.000001 <= b -> budget_fit_score b b == 0.85.
Proof.
  intro Hb. unfold budget_fit_score.
  destruct (Qle_bool b b) eqn:E.
  2:{ apply Qle_bool_false_iff in E. lra. }
  rewrite (max_floor_inactive b Hb).
  assert (H1 : b / b == 1) by (field; lra).
  set (o := b / b) in *. q_cases; lra.
Qed.

Lemma overrun_scaled (p b : Q) : 0 < b -> ((p - b) / b) * b == p - b.
Proof. intro Hb. field. lra. Qed.

(** X2: Exactly at the budget the score is [0.85], its lowest value within the
    budget, while a price just above the budget scores close to [1]: every
    price over the budget by less than 3/28 of it scores strictly more
    than the budget itself, so the score is not monotone in the price.
    Above the budget the score is [0] exactly from 12/7 of the budget on. *)
Theorem budget_fit_score_over_profile (p b : Q) :
  0.000001 <= b -> b < p ->
  budget_fit_score b b == 0.85
  /\ (budget_fit_score b b < budget_fit_score p b <-> p < (31 # 28) * b)
  /\ (budget_fit_score p b == 0 <-> (12 # 7) * b <= p).
Proof.
  intros Hb Hp.
  pose proof (budget_fit_score_at_budget b Hb) as Hat.
  split; [ exact Hat | ].
  rewrite Hat. rewrite (budget_fit_score_over p b Hb Hp).
  pose proof (overrun_scaled p b ltac:(lra)) as Ho.
  set (o := (p - b) / b) in *.
  assert (Hpo : p == b + o * b) by lra.
  assert (Hopos : 0 < o).
  { unfold o. apply Qlt_shift_div_l; lra. }
  assert (Hlt : forall c, o < c <-> p < (1 + c) * b).
  { intro c. split; intro H.
    - assert (o * b < c * b) by (apply Qmult_lt_compat_r; lra). lra.
    - apply Qnot_le_lt. intro Hc.
      assert (c * b <= o * b) by (apply Qmult_le_compat_r; lra). lra. }
  split.
  - rewrite <- (Hlt (3 # 28)). split; intro H; q_cases; lra.
  - split; intro H.
    + apply Qnot_lt_le. intro Hc.
      assert (Ho' : o < 5 # 7) by (apply Hlt; lra).
      revert H. q_cases; lra.
    + assert (Ho' : ~ o < 5 # 7).
      { intro Hc. apply Hlt in Hc. lra. }
      q_cases; lra.
Qed.

Lemma budget_fit_score_over_profile_witness :
  budget_fit_score 70 70 == 0.85
  /\ budget_fit_score 70 70 < budget_fit_score 72 70
  /\ budget_fit_score 120 70 == 0.
Proof.
  destruct (budget_fit_score_over_profile 72 70 ltac:(lra) ltac:(lra))
    as [H1 [H2 _]].
  destruct (budget_fit_score_over_profile 120 70 ltac:(lra) ltac:(lra))
    as [_ [_ H3]].
  split; [ exact H1 | split ].
  - apply H2. lra.
  - apply H3. lra.
Defined.

(** X3: Within the budget, a non-negative price [p] scores
    [1 - 0.15 * p / budget]: a free stay scores [1], and a dearer stay
    scores strictly less than a cheaper one. *)
Theorem budget_fit_score_within_budget (p1 p2 b : Q) :
  0.000001 <= b -> 0 <= p1 -> p1 < p2 -> p2 <= b ->
  budget_fit_score p1 b == 1 - 0.15 * (p1 / b)
  /\ budget_fit_score 0 b == 1
  /\ budget_fit_score p2 b < budget_fit_score p1 b.
Proof.
  intros Hb H0 H12 H2b.
  assert (Hval : forall p, 0 <= p -> p <= b ->
                   budget_fit_score p b == 1 - 0.15 * (p / b)).
  { intros p Hp0 Hpb. unfold budget_fit_score.
    destruct (Qle_bool p b) eqn:E.
    2:{ apply Qle_bool_false_iff in E. lra. }
    rewrite (max_floor_inactive b Hb).
    assert (Hq1 : p / b <= 1) by (apply Qle_shift_div_r; lra).
    assert (Hq0 : 0 <= p / b) by (apply Qle_shift_div_l; lra).
    set (o := p / b) in *. q_cases; lra. }
  split; [ apply Hval; lra | split ].
  - rewrite (Hval 0) by lra.
    assert (E : 0 / b == 0) by (field; lra). rewrite E. lra.
  - rewrite (Hval p1), (Hval p2) by lra.
    assert (Hlt : p1 / b < p2 / b).
    { apply Qlt_shift_div_l; [ lra | ].
      assert (E : p1 / b * b == p1) by (field; lra). lra. }
    lra.
Qed.

Lemma budget_fit_score_within_budget_witness :
  budget_fit_score 65 70 < budget_fit_score 45 70.
Proof.
  destruct (budget_fit_score_within_budget 45 65 70
              ltac:(lra) ltac:(lra) ltac:(lra) ltac:(lra)) as [_ [_ H]].
  exact H.
Defined.

(** ** Location *)

Lemma location_score_value (d : Q) :
  ~ 1.0 + 0.35 * d == 0 ->
  location_score d = Some (clamp (1.0 / (1.0 + 0.35 * d)) 0.0 1.0).
Proof.
  intro H. unfold location_score, PyNum.div.
  destruct (Qeq_bool (1.0 + 0.35 * d) 0) eqn:E; [ | reflexivity ].
  apply Qeq_bool_eq in E. contradiction.
Qed.

Lemma location_ratio (d : Q) :
  0 <= d ->
  (1.0 / (1.0 + 0.35 * d)) * (1.0 + 0.35 * d) == 1
  /\ 0 < 1.0 / (1.0 + 0.35 * d) <= 1.
Proof.
  intro Hd.
  assert (E : (1.0 / (1.0 + 0.35 * d)) * (1.0 + 0.35 * d) == 1) by (field; lra).
  split; [ exact E | split ].
  - apply Qlt_shift_div_l; lra.
  - apply Qle_shift_div_r; lra.
Qed.


(** X6: At the center the score is [1]; farther away it is strictly smaller
    and stays positive: there is no distance at which it reaches [0]. *)
Theorem location_score_decreasing (d1 d2 : Q) :
  0 <= d1 -> d1 < d2 ->
  exists s0 s1 s2,
    location_score 0 = Some s0 /\ s0 == 1
    /\ location_score d1 = Some s1 /\ location_score d2 = Some s2
    /\ 0 < s2 /\ s2 < s1 /\ s1 <= 1.
Proof.
  intros H1 H12.
  destruct (location_ratio d1 H1) as [E1 [P1 L1]].
  destruct (location_ratio d2 ltac:(lra)) as [E2 [P2 L2]].
  do 3 eexists.
  split; [ apply location_score_value; lra | ].
  split; [ vm_compute; reflexivity | ].
  split; [ apply location_score_value; lra | ].
  split; [ apply location_score_value; lra | ].
  set (u1 := 1.0 / (1.0 + 0.35 * d1)) in *.
  set (u2 := 1.0 / (1.0 + 0.35 * d2)) in *.
  assert (Hlt : u2 < u1).
  { apply Qnot_le_lt. intro Hc.
    assert (Hm : u1 * (1.0 + 0.35 * d1) <= u2 * (1.0 + 0.35 * d1))
      by (apply Qmult_le_compat_r; lra).
    assert (Hn : u2 * (1.0 + 0.35 * d1) < u2 * (1.0 + 0.35 * d2))
      by (apply Qmult_lt_l; lra).
    lra. }
  q_cases; lra.
Qed.

Lemma location_score_decreasing_witness :
  exists s1 s2,
    location_score 0.6 = Some s1 /\ location_score 3.2 = Some s2 /\ s2 < s1.
Proof.
  destruct (location_score_decreasing 0.6 3.2 ltac:(lra) ltac:(lra))
    as [s0 [s1 [s2 [_ [_ [H1 [H2 [_ [H _]]]]]]]]].
  exists s1, s2. repeat split; assumption.
Defined.


Section ExplainLocation.
Context {RT : Runtime}.


End ExplainLocation.


(** ** Rating and quality *)

(** X4: Ratings are read on a scale of 10 for the platform tag ["booking"],
    compared as it is written, and on a scale of 5 for every other tag; a
    rating in the scale is divided by it, a rating above it counts as [1]
    and a negative one as [0]. *)
Theorem normalize_rating_scale (pf : string) (r : Q) :
  let scale := if String.eqb pf "booking" then 10 else 5 in
  (0 <= r <= scale -> normalize_rating pf r == r / scale)
  /\ (scale <= r -> normalize_rating pf r == 1)
  /\ (r <= 0 -> normalize_rating pf r == 0).
Proof.
  unfold normalize_rating. cbv zeta.
  destruct (String.eqb pf "booking").
  - assert (E : r / 10.0 == r / 10) by (field; lra).
    assert (E' : r / 10 == r * (1 # 10)) by (field; lra).
    set (o := r / 10.0) in *. set (o' := r / 10) in *.
    repeat split; intro H; q_cases; lra.
  - assert (E : r / 5.0 == r / 5) by (field; lra).
    assert (E' : r / 5 == r * (1 # 5)) by (field; lra).
    set (o := r / 5.0) in *. set (o' := r / 5) in *.
    repeat split; intro H; q_cases; lra.
Qed.

Lemma normalize_rating_scale_witness :
  normalize_rating "booking" 8.4 == 8.4 / 10
  /\ normalize_rating "airbnb" 8.4 == 1.
Proof.
  pose proof (normalize_rating_scale "booking" 8.4) as [H1 _].
  pose proof (normalize_rating_scale "airbnb" 8.4) as [_ [H2 _]].
  split.
  - apply H1. vm_compute. split; discriminate.
  - apply H2. vm_compute. discriminate.
Defined.

Section QualityFacts.
Context {RT : Runtime}.

(** X5: Whatever the review count, the quality score lies between 75% of the
    normalized rating and that plus [0.25]; so quality [0.8], which the
    explanation calls strong, needs a normalized rating of at least
    [11/15].  A review count of 0 or below counts as a single review. *)
Theorem quality_score_bounds (pf : string) (r : Q) (n : Z) :
  0.75 * normalize_rating pf r <= quality_score pf r n
  /\ quality_score pf r n <= 0.75 * normalize_rating pf r + 0.25
  /\ (0.8 <= quality_score pf r n -> 11 # 15 <= normalize_rating pf r)
  /\ ((n <= 1)%Z -> quality_score pf r n = quality_score pf r 1).
Proof.
  pose proof (normalize_rating_range pf r) as Hr.
  assert (Hb : 0.75 * normalize_rating pf r <= quality_score pf r n
               /\ quality_score pf r n <= 0.75 * normalize_rating pf r + 0.25).
  { unfold quality_score.
    pose proof (clamp_unit (log10 (PyNum.Zmax n 1) / 3.0)) as Hc.
    set (c := clamp (log10 (PyNum.Zmax n 1) / 3.0) 0.0 1.0) in *.
    set (x := normalize_rating pf r) in *.
    split; q_cases; lra. }
  destruct Hb as [Hlo Hhi].
  split; [ exact Hlo | split; [ exact Hhi | split ] ].
  - intro H. lra.
  - intro Hn. unfold quality_score.
    replace (PyNum.Zmax n 1) with (PyNum.Zmax 1 1); [ reflexivity | ].
    rewrite !Zmax_spec. lia.
Qed.

End QualityFacts.

Lemma quality_score_bounds_witness :
  @quality_score Sample.runtime "airbnb" 4.5 0
  = @quality_score Sample.runtime "airbnb" 4.5 1.
Proof.
  apply (@quality_score_bounds Sample.runtime "airbnb" 4.5 0). lia.
Defined.

(** ** Amenities *)











Section ExplainAmenities.
Context {RT : Runtime}.


End ExplainAmenities.


(** ** The preferred-area bonus *)

Section BonusFacts.
Context {RT : Runtime}.

(** X8: Naming preferred areas never lowers the score of a listing and raises
    it by at most 12 points: the score under a trip is between the score
    under the same trip without preferred areas and that plus 12, with the
    same breakdown. *)
Theorem area_bonus_effect (l : StayListing) (trip trip0 : TripInput)
    (s : Q) (parts : ScoreBreakdown) :
  nightly_budget trip0 = nightly_budget trip ->
  must_haves trip0 = must_haves trip ->
  prefer_areas trip0 = [] ->
  score_listing l trip = Some (s, parts) ->
  exists s0,
    score_listing l trip0 = Some (s0, parts) /\ s0 <= s <= s0 + 12.
Proof.
  intros Hb Hm Hp Hs. unfold score_listing in *.
  rewrite Hb, Hm, Hp.
  destruct (location_score (distance_km_to_center l)) as [loc | ];
    simpl in *; [ | discriminate ].
  injection Hs as <- <-.
  eexists. split; [ reflexivity | ].
  destruct (area_bonus_spec (area l) (prefer_areas trip)) as [[_ ->] | [_ ->]];
    match goal with
    | |- context [0.40 * ?b + 0.25 * ?q + 0.20 * ?lc + 0.15 * ?a + _] =>
        set (base := 0.40 * b + 0.25 * q + 0.20 * lc + 0.15 * a) in *
    end;
    q_cases; lra.
Qed.

End BonusFacts.

Lemma area_bonus_effect_witness :
  exists s s0 parts,
    @score_listing Sample.runtime SampleMore.hotel SampleMore.trip_city_center
    = Some (s, parts)
    /\ @score_listing Sample.runtime SampleMore.hotel Sample.trip_relaxed
       = Some (s0, parts)
    /\ s0 <= s <= s0 + 12.
Proof.
  assert (E : exists s parts,
            @score_listing Sample.runtime SampleMore.hotel
              SampleMore.trip_city_center = Some (s, parts)).
  { unfold score_listing.
    rewrite location_score_value by (vm_compute; discriminate).
    do 2 eexists. reflexivity. }
  destruct E as [s [parts E]].
  destruct (@area_bonus_effect Sample.runtime SampleMore.hotel
              SampleMore.trip_city_center Sample.trip_relaxed s parts
              eq_refl eq_refl eq_refl E) as [s0 [H0 Hr]].
  exists s, s0, parts. split; [ exact E | split; [ exact H0 | exact Hr ] ].
Defined.

(** * Further properties of the itinerary *)

(** ** Nights *)



(** ** When the itinerary fails, and what every itinerary has *)

Lemma generate_itinerary_dates (trip : TripInput) (resp : ItineraryResponse) :
  generate_itinerary trip = Some resp ->
  exists a b,
    parse_date (start_date trip) = Some a /\ parse_date (end_date trip) = Some b.
Proof.
  unfold generate_itinerary. intro H.
  destruct (parse_date (start_date trip)) as [a | ]; [ | discriminate ].
  destruct (parse_date (end_date trip)) as [b | ]; [ | discriminate ].
  exists a, b. split; reflexivity.
Qed.


(** X13: Every itinerary has at least one day, echoes the destination and
    carries the two fixed notes; its days all have the same three slot
    texts, and the estimated cost repeats every three days. *)
Theorem generate_itinerary_shape (trip : TripInput) (resp : ItineraryResponse) :
  generate_itinerary trip = Some resp ->
  days resp <> []
  /\ it_destination resp = destination trip
  /\ notes resp = itinerary_notes
  /\ (forall d1 d2, In d1 (days resp) -> In d2 (days resp) ->
        morning d1 = morning d2 /\ afternoon d1 = afternoon d2
        /\ evening d1 = evening d2)
  /\ (forall i d1 d2,
        nth_error (days resp) i = Some d1 ->
        nth_error (days resp) (i + 3) = Some d2 ->
        est_cost d1 = est_cost d2).
Proof.
  intro H. destruct (generate_itinerary_dates trip resp H) as [a [b [Ha Hb]]].
  destruct (generate_itinerary_run trip a b Ha Hb) as [days_ [Hrun HF]].
  rewrite Hrun in H. injection H as <-. cbn [days it_destination notes].
  split; [ | split; [ reflexivity | split; [ reflexivity | split ] ] ].
  - intro E. subst days_. apply Forall2_length in HF.
    pose proof (range_length (Z.max 1 (Date.days_between a b)) ltac:(lia)) as Hl.
    rewrite HF in Hl. simpl in Hl. lia.
  - intros d1 d2 H1 H2.
    destruct (generate_itinerary_In trip a b _ _ HF H1) as [i1 [Hi1 Hd1]].
    destruct (generate_itinerary_In trip a b _ _ HF H2) as [i2 [Hi2 Hd2]].
    destruct (itinerary_day_run trip a b Ha Hb i1 Hi1) as [x1 [_ E1]].
    destruct (itinerary_day_run trip a b Ha Hb i2 Hi2) as [x2 [_ E2]].
    rewrite E1 in Hd1. rewrite E2 in Hd2.
    injection Hd1 as <-. injection Hd2 as <-. repeat split; reflexivity.
  - intros i d1 d2 H1 H2.
    destruct (generate_itinerary_nth trip a b _ _ _ HF H1) as [Hi1 Hd1].
    destruct (generate_itinerary_nth trip a b _ _ _ HF H2) as [Hi2 Hd2].
    destruct (itinerary_day_run trip a b Ha Hb _ Hi1) as [x1 [_ E1]].
    destruct (itinerary_day_run trip a b Ha Hb _ Hi2) as [x2 [_ E2]].
    rewrite E1 in Hd1. rewrite E2 in Hd2.
    injection Hd1 as <-. injection Hd2 as <-. cbn [est_cost].
    replace (Z.of_nat (i + 3) mod 3)%Z with (Z.of_nat i mod 3)%Z; [ reflexivity | ].
    rewrite Nat2Z.inj_add. change (Z.of_nat 3) with (1 * 3)%Z.
    rewrite Z.mod_add by lia. reflexivity.
Qed.

Lemma generate_itinerary_shape_witness :
  exists resp,
    generate_itinerary Sample.trip_relaxed = Some resp
    /\ days resp <> [] /\ notes resp = itinerary_notes.
Proof.
  destruct (generate_itinerary_run Sample.trip_relaxed
              (Date.mkDate 2024 1 10) (Date.mkDate 2024 1 12) eq_refl eq_refl)
    as [days_ [E _]].
  destruct (generate_itinerary_shape Sample.trip_relaxed _ E)
    as [H1 [_ [H2 _]]].
  eexists. split; [ exact E | split; assumption ].
Defined.

(** ** Bounds and scaling of the estimated costs *)

Lemma base_pp_range (s : string) :
  (30 <= dict_get base_pp_table s 40 <= 55)%Z.
Proof.
  unfold dict_get, base_pp_table. cbn [dict_index].
  repeat match goal with
    | |- context [String.eqb s ?k] => destruct (String.eqb s k)
    end; lia.
Qed.

Lemma fold_add_bounds (lo hi : Z) (ks : list Z) (acc : Z) :
  (forall k, In k ks -> (lo <= k <= hi)%Z) ->
  (acc + lo * Z.of_nat (List.length ks) <= fold_left Z.add ks acc
   <= acc + hi * Z.of_nat (List.length ks))%Z.
Proof.
  revert acc. induction ks as [ | k r IH]; intros acc H; simpl fold_left.
  - simpl. lia.
  - specialize (IH (acc + k)%Z (fun x Hx => H x (or_intror Hx))).
    pose proof (H k (or_introl eq_refl)).
    change (List.length (k :: r)) with (S (List.length r)). lia.
Qed.

Lemma fold_add_scale (g : Z -> Z) (t : Z) (l : list Z) (acc : Z) :
  fold_left Z.add (map (fun i => (g i * t)%Z) l) (acc * t)%Z
  = (fold_left Z.add (map g l) acc * t)%Z.
Proof.
  revert acc. induction l as [ | i r IH]; intro acc; simpl; [ reflexivity | ].
  rewrite <- IH. f_equal. lia.
Qed.

(** The total of an itinerary, as an integer. *)
Lemma generate_itinerary_total (trip : TripInput) (a b : Date.date) :
  parse_date (start_date trip) = Some a ->
  parse_date (end_date trip) = Some b ->
  exists resp,
    generate_itinerary trip = Some resp
    /\ map est_cost (days resp)
       = map inject_Z
           (map (fun i =>
                   ((dict_get base_pp_table (Str.strip (Str.lower (style trip))) 40
                     + (i mod 3) * 3) * travelers trip)%Z)
                (range (Z.max 1 (Date.days_between a b))))
    /\ total_est_cost resp
       == inject_Z
            (fold_left Z.add
               (map (fun i =>
                       ((dict_get base_pp_table (Str.strip (Str.lower (style trip))) 40
                         + (i mod 3) * 3) * travelers trip)%Z)
                    (range (Z.max 1 (Date.days_between a b)))) 0%Z).
Proof.
  intros Ha Hb.
  destruct (generate_itinerary_costs trip a b Ha Hb) as [resp [Hrun [Hc Ht]]].
  exists resp. split; [ exact Hrun | split; [ exact Hc | ] ].
  rewrite Ht. apply round_int_valued. rewrite Hc. apply sum_of_ints.
Qed.

(** X14: For a validated request (1 to 20 travelers) every day costs between
    30 and 61 per traveler, so between 30 and 1220, and the total lies
    between 30 and 1220 times the number of days. *)
Theorem itinerary_cost_bounds (trip : TripInput) (resp : ItineraryResponse) :
  valid_trip trip ->
  generate_itinerary trip = Some resp ->
  (forall day, In day (days resp) ->
     inject_Z (30 * travelers trip) <= est_cost day <= inject_Z (61 * travelers trip)
     /\ 30 <= est_cost day <= 1220)
  /\ inject_Z (30 * Z.of_nat (List.length (days resp))) <= total_est_cost resp
  /\ total_est_cost resp <= inject_Z (1220 * Z.of_nat (List.length (days resp))).
Proof.
  intros [Ht _] H.
  destruct (generate_itinerary_dates trip resp H) as [a [b [Ha Hb]]].
  destruct (generate_itinerary_total trip a b Ha Hb) as [resp' [Hrun [Hc Hsum]]].
  rewrite Hrun in H. injection H as ->.
  set (f := fun i : Z =>
              ((dict_get base_pp_table (Str.strip (Str.lower (style trip))) 40
                + (i mod 3) * 3) * travelers trip)%Z) in *.
  set (ks := map f (range (Z.max 1 (Date.days_between a b)))) in *.
  assert (Hk : forall k, In k ks ->
                 (30 * travelers trip <= k <= 61 * travelers trip)%Z).
  { intros k Hin. apply in_map_iff in Hin. destruct Hin as [i [<- _]]. unfold f.
    pose proof (base_pp_range (Str.strip (Str.lower (style trip)))) as Hbase.
    pose proof (Z.mod_pos_bound i 3 ltac:(lia)) as Hm.
    split; apply Z.mul_le_mono_nonneg_r; lia. }
  assert (Hlen : List.length (days resp) = List.length ks).
  { rewrite <- (length_map est_cost), Hc, length_map. reflexivity. }
  split; [ | split ].
  - intros day Hin. apply (in_map est_cost) in Hin. rewrite Hc in Hin.
    apply in_map_iff in Hin. destruct Hin as [k [<- Hin]].
    specialize (Hk k Hin).
    change 30 with (inject_Z 30). change 1220 with (inject_Z 1220).
    rewrite <- !Zle_Qle. lia.
  - rewrite Hsum, <- Zle_Qle, Hlen.
    pose proof (fold_add_bounds 30 1220 ks 0) as Hb'.
    assert (Hall : forall k, In k ks -> (30 <= k <= 1220)%Z)
      by (intros k Hin; specialize (Hk k Hin); lia).
    specialize (Hb' Hall). lia.
  - rewrite Hsum, <- Zle_Qle, Hlen.
    pose proof (fold_add_bounds 30 1220 ks 0) as Hb'.
    assert (Hall : forall k, In k ks -> (30 <= k <= 1220)%Z)
      by (intros k Hin; specialize (Hk k Hin); lia).
    specialize (Hb' Hall). lia.
Qed.

Lemma itinerary_cost_bounds_witness :
  exists resp,
    generate_itinerary Sample.trip_relaxed = Some resp
    /\ inject_Z (30 * Z.of_nat (List.length (days resp))) <= total_est_cost resp.
Proof.
  destruct (generate_itinerary_run Sample.trip_relaxed
              (Date.mkDate 2024 1 10) (Date.mkDate 2024 1 12) eq_refl eq_refl)
    as [days_ [E _]].
  assert (Hv : valid_trip Sample.trip_relaxed).
  { split; [ simpl; lia | vm_compute; discriminate ]. }
  destruct (itinerary_cost_bounds Sample.trip_relaxed _ Hv E) as [_ [H _]].
  eexists. split; [ exact E | exact H ].
Defined.

(** X15: The total is proportional to the number of travelers: a trip costs
    its number of travelers times what the same trip costs for one. *)
Theorem itinerary_total_scales (trip trip1 : TripInput)
    (resp resp1 : ItineraryResponse) :
  start_date trip1 = start_date trip ->
  end_date trip1 = end_date trip ->
  style trip1 = style trip ->
  travelers trip1 = 1%Z ->
  generate_itinerary trip = Some resp ->
  generate_itinerary trip1 = Some resp1 ->
  total_est_cost resp == inject_Z (travelers trip) * total_est_cost resp1
  /\ List.length (days resp) = List.length (days resp1).
Proof.
  intros Hs He Hst Ht1 H H1.
  destruct (generate_itinerary_dates trip resp H) as [a [b [Ha Hb]]].
  destruct (generate_itinerary_total trip a b Ha Hb) as [r [Hrun [Hc Hsum]]].
  rewrite Hrun in H. injection H as ->.
  rewrite <- Hs in Ha. rewrite <- He in Hb.
  destruct (generate_itinerary_total trip1 a b Ha Hb) as [r1 [Hrun1 [Hc1 Hsum1]]].
  rewrite Hrun1 in H1. injection H1 as ->.
  rewrite Hst, Ht1 in Hc1, Hsum1.
  split.
  - rewrite Hsum, Hsum1, <- inject_Z_mult.
    pose proof (fold_add_scale
                  (fun i => ((dict_get base_pp_table
                                (Str.strip (Str.lower (style trip))) 40
                              + (i mod 3) * 3) * 1)%Z)
                  (travelers trip)
                  (range (Z.max 1 (Date.days_between a b))) 0) as Hscale.
    replace (fold_left Z.add _ 0%Z)
      with (fold_left Z.add
              (map (fun i =>
                      (((dict_get base_pp_table
                           (Str.strip (Str.lower (style trip))) 40
                         + (i mod 3) * 3) * 1) * travelers trip)%Z)
                   (range (Z.max 1 (Date.days_between a b)))) (0 * travelers trip)%Z).
    + rewrite Hscale. rewrite Z.mul_comm. reflexivity.
    + simpl Z.mul at 1. f_equal. apply map_ext. intro i. lia.
  - rewrite <- (length_map est_cost (days resp)), Hc.
    rewrite <- (length_map est_cost (days resp1)), Hc1.
    rewrite !length_map. reflexivity.
Qed.

Lemma itinerary_total_scales_witness :
  exists resp resp1,
    generate_itinerary Sample.trip_relaxed = Some resp
    /\ generate_itinerary SampleMore.trip_solo = Some resp1
    /\ total_est_cost resp == 2 * total_est_cost resp1.
Proof.
  destruct (generate_itinerary_run Sample.trip_relaxed
              (Date.mkDate 2024 1 10) (Date.mkDate 2024 1 12) eq_refl eq_refl)
    as [days_ [E _]].
  destruct (generate_itinerary_run SampleMore.trip_solo
              (Date.mkDate 2024 1 10) (Date.mkDate 2024 1 12) eq_refl eq_refl)
    as [days1 [E1 _]].
  destruct (itinerary_total_scales Sample.trip_relaxed SampleMore.trip_solo _ _
              eq_refl eq_refl eq_refl eq_refl E E1) as [H _].
  do 2 eexists. split; [ exact E | split; [ exact E1 | exact H ] ].
Defined.

(** * Further properties of the catalog and of the recommendations *)

Section FetchMore.
Context {RT : Runtime} {PV : Providers}.
Variable trip : TripInput.


End FetchMore.




Lemma NoDup_firstn {A : Type} (n : nat) (l : list A) :
  NoDup l -> NoDup (firstn n l).
Proof.
  intro H. revert n. induction H as [ | x r Hx Hr IH]; intros [ | n]; simpl;
    try constructor.
  - intro Hin. apply Hx. apply firstn_In in Hin. exact Hin.
  - apply IH.
Qed.

Section RecommendMore.
Context {RT : Runtime} {PV : Providers}.
Variable trip : TripInput.

Lemma score_listing_range (l : StayListing) (s : Q) (parts : ScoreBreakdown) :
  score_listing l trip = Some (s, parts) -> 0 <= s <= 100.
Proof.
  unfold score_listing.
  destruct (location_score (distance_km_to_center l)) as [loc | ];
    simpl; [ | discriminate ].
  intro H. injection H as <- _.
  match goal with |- _ <= clamp ?x _ _ * _ <= _ => pose proof (clamp_unit x) end.
  lra.
Qed.


(** All the fields of a response. *)
Lemma recommend_stays_unfold (resp : StaysResponse) :
  recommend_stays trip = Some resp ->
  exists n scored,
    nights_between (start_date trip) (end_date trip) = Some n
    /\ mapM (score_entry trip) (surviving_listings trip) = Some scored
    /\ st_destination resp = destination trip
    /\ nights resp = n
    /\ recommendations resp
       = map (recommendation trip n)
             (firstn 10 (sort_desc (fun e => fst (fst e)) scored)).
Proof.
  unfold recommend_stays. intro H.
  destruct (nights_between (start_date trip) (end_date trip)) as [n | ];
    simpl in H; [ | discriminate ].
  destruct (mapM (score_entry trip) (surviving_listings trip)) as [scored | ];
    simpl in H; [ | discriminate ].
  injection H as <-. exists n, scored. repeat split; reflexivity.
Qed.


(** X18: Each recommendation carries a match score between 0 and 100, the
    explanation of its own listing, and the nightly price times the
    nights rounded to two decimals; the response echoes the destination and
    counts at least one night. *)
Theorem recommend_stays_fields (resp : StaysResponse) :
  recommend_stays trip = Some resp ->
  st_destination resp = destination trip
  /\ nights_between (start_date trip) (end_date trip) = Some (nights resp)
  /\ (1 <= nights resp)%Z
  /\ forall r, In r (recommendations resp) ->
       0 <= match_score r <= 100
       /\ est_total_price r
          = PyNum.round (nightly_price (listing r) * inject_Z (nights resp)) 2
       /\ exists s parts,
            score_listing (listing r) trip = Some (s, parts)
            /\ why r = explain_listing (listing r) trip parts.
Proof.
  intro H.
  destruct (recommend_stays_unfold resp H) as [n [scored [Hn [Hs [Hd [Hni Hr]]]]]].
  destruct (scored_listings trip _ _ Hs) as [_ Hsc].
  split; [ exact Hd | ]. rewrite Hni.
  split; [ exact Hn | ].
  split.
  { unfold nights_between in Hn.
    destruct (parse_date (start_date trip)); [ | discriminate ].
    destruct (parse_date (end_date trip)); [ | discriminate ].
    simpl in Hn. injection Hn as <-. rewrite Zmax_spec. lia. }
  intros r Hin. rewrite Hr in Hin. apply in_map_iff in Hin.
  destruct Hin as [[[sc l] parts] [<- He]].
  apply firstn_In in He.
  apply (Permutation_in _ (sort_desc_perm _ scored)) in He.
  specialize (Hsc _ He). cbn [fst snd] in Hsc.
  cbn [recommendation match_score est_total_price listing why].
  pose proof (score_listing_range l sc parts Hsc) as Hrange.
  split; [ | split; [ reflexivity | exists sc, parts; split; [ exact Hsc | reflexivity ] ] ].
  split.
  - assert (E : PyNum.round 0 1 == 0) by (vm_compute; reflexivity).
    rewrite <- E. apply round_mono. apply Hrange.
  - assert (E : PyNum.round 100 1 == 100) by (vm_compute; reflexivity).
    rewrite <- E. apply round_mono. apply Hrange.
Qed.


(** X20: A catalog without repeated listings gives recommendations without
    repeated listings. *)
Theorem recommend_stays_no_repeat (resp : StaysResponse) :
  NoDup (fetch_listings trip) ->
  recommend_stays trip = Some resp ->
  NoDup (map listing (recommendations resp)).
Proof.
  intros Hnd H.
  destruct (recommended_listings trip resp H) as [scored [Hs Hr]].
  rewrite Hr, <- firstn_map. apply NoDup_firstn.
  eapply Permutation_NoDup.
  - apply Permutation_sym, Permutation_map, sort_desc_perm.
  - rewrite Hs. unfold surviving_listings. apply NoDup_filter. exact Hnd.
Qed.

End RecommendMore.

Lemma mock_catalog_distances (l : StayListing) :
  In l MOCK_LISTINGS -> 0 <= distance_km_to_center l.
Proof.
  intro Hl.
  repeat (destruct Hl as [<- | Hl]; [ vm_compute; discriminate | ]).
  destruct Hl.
Qed.

Lemma mock_catalog_distinct : NoDup MOCK_LISTINGS.
Proof.
  unfold MOCK_LISTINGS.
  repeat (constructor; [ simpl; intuition discriminate | ]).
  constructor.
Qed.


Lemma recommend_stays_fields_witness :
  exists resp,
    @recommend_stays Sample.runtime stub_providers Sample.trip_relaxed = Some resp
    /\ nights resp = 2%Z
    /\ forall r, In r (recommendations resp) -> 0 <= match_score r <= 100.
Proof.
  destruct (@recommend_stays_defined Sample.runtime stub_providers
              Sample.trip_relaxed (Date.mkDate 2024 1 10) (Date.mkDate 2024 1 12)
              eq_refl eq_refl (sample_distances _)) as [resp E].
  destruct (@recommend_stays_fields Sample.runtime stub_providers
              Sample.trip_relaxed resp E) as [_ [Hn [_ Hr]]].
  exists resp. split; [ exact E | split ].
  - change (nights_between (start_date Sample.trip_relaxed)
              (end_date Sample.trip_relaxed)) with (Some 2%Z) in Hn.
    injection Hn as <-. reflexivity.
  - intros r Hin. apply (Hr r Hin).
Defined.


Lemma recommend_stays_no_repeat_witness :
  exists resp,
    @recommend_stays Sample.runtime stub_providers Sample.trip_relaxed = Some resp
    /\ NoDup (map listing (recommendations resp)).
Proof.
  destruct (@recommend_stays_defined Sample.runtime stub_providers
              Sample.trip_relaxed (Date.mkDate 2024 1 10) (Date.mkDate 2024 1 12)
              eq_refl eq_refl (sample_distances _)) as [resp E].
  exists resp. split; [ exact E | ].
  apply (@recommend_stays_no_repeat Sample.runtime stub_providers
           Sample.trip_relaxed resp); [ | exact E ].
  rewrite fetch_listings_stub. exact mock_catalog_distinct.
Defined.

Section Independence.
Context {RT : Runtime} {PV : Providers}.

(** X21: The style plays no part in the recommendations, and the dealbreakers
    act only through the filter: two trips that agree on every other field
    and whose dealbreakers remove the same fetched listings get the same
    response.  In particular a dealbreaker that no fetched listing
    violates changes nothing. *)
Theorem recommend_stays_independence (trip1 trip2 : TripInput) :
  destination trip1 = destination trip2 ->
  start_date trip1 = start_date trip2 ->
  end_date trip1 = end_date trip2 ->
  travelers trip1 = travelers trip2 ->
  nightly_budget trip1 = nightly_budget trip2 ->
  must_haves trip1 = must_haves trip2 ->
  prefer_areas trip1 = prefer_areas trip2 ->
  (forall l, In l (fetch_listings trip1) ->
     dealbreaker_ok (room_type l) (dealbreakers trip1)
     = dealbreaker_ok (room_type l) (dealbreakers trip2)) ->
  recommend_stays trip1 = recommend_stays trip2.
Proof.
  destruct trip1 as [d1 s1 e1 t1 b1 st1 m1 db1 p1].
  destruct trip2 as [d2 s2 e2 t2 b2 st2 m2 db2 p2].
  cbn [destination start_date end_date travelers nightly_budget must_haves
       prefer_areas dealbreakers].
  intros <- <- <- <- <- <- <- Hdb.
  assert (Hs : surviving_listings (mkTripInput d1 s1 e1 t1 b1 st1 m1 db1 p1)
               = surviving_listings (mkTripInput d1 s1 e1 t1 b1 st2 m1 db2 p1)).
  { unfold surviving_listings. cbn [dealbreakers].
    change (fetch_listings (mkTripInput d1 s1 e1 t1 b1 st2 m1 db2 p1))
      with (fetch_listings (mkTripInput d1 s1 e1 t1 b1 st1 m1 db1 p1)).
    apply filter_ext_in. exact Hdb. }
  unfold recommend_stays. rewrite Hs. reflexivity.
Qed.

End Independence.

Lemma recommend_stays_independence_witness :
  @recommend_stays Sample.runtime stub_providers Sample.trip_relaxed
  = @recommend_stays Sample.runtime stub_providers
      (mkTripInput "Ifrane, Morocco" "2024-01-10" "2024-01-12" 2 70 "packed"
         [] ["shared_room"%string] []).
Proof.
  apply (@recommend_stays_independence Sample.runtime stub_providers);
    try reflexivity.
  intros l Hl. rewrite fetch_listings_stub in Hl.
  repeat (destruct Hl as [<- | Hl]; [ reflexivity | ]).
  destruct Hl.
Defined.

Section Shipped.
Context {RT : Runtime}.

(** X22: With the two clients of [src/providers], which return nothing, every
    trip whose dates parse is answered from the built-in catalog: the
    response counts the nights between the dates and recommends the whole
    catalog, four listings, or three when ["private_room"] is among the
    lowercased dealbreakers; no other dealbreaker removes anything. *)
Theorem recommend_stays_with_stubs (trip : TripInput) (a b : Date.date) :
  parse_date (start_date trip) = Some a ->
  parse_date (end_date trip) = Some b ->
  exists resp,
    @recommend_stays RT stub_providers trip = Some resp
    /\ nights resp = Z.max 1 (Date.days_between a b)
    /\ (forall r, In r (recommendations resp) -> In (listing r) MOCK_LISTINGS)
    /\ List.length (recommendations resp)
       = (if Str.mem "private_room" (map Str.lower (dealbreakers trip))
          then 3 else 4)%nat.
Proof.
  intros Ha Hb.
  assert (Hsurv : forall l, In l (@surviving_listings RT stub_providers trip) ->
                            In l MOCK_LISTINGS).
  { intros l Hl. unfold surviving_listings in Hl. apply filter_In in Hl.
    rewrite fetch_listings_stub in Hl. apply Hl. }
  destruct (@recommend_stays_defined RT stub_providers trip a b Ha Hb)
    as [resp E].
  { intros l Hl. apply mock_catalog_distances, Hsurv, Hl. }
  exists resp. split; [ exact E | ].
  destruct (recommend_stays_unfold trip resp E) as [n [scored [Hn [Hs [_ [Hni Hr]]]]]].
  destruct (scored_listings trip _ _ Hs) as [Hl _].
  split; [ | split ].
  - rewrite Hni. unfold nights_between in Hn. rewrite Ha, Hb in Hn.
    simpl in Hn. injection Hn as <-. apply Zmax_spec.
  - intros r Hin.
    destruct (recommended_survived trip resp (listing r) E (in_map listing _ _ Hin))
      as [Hf _].
    rewrite fetch_listings_stub in Hf. exact Hf.
  - rewrite Hr, length_map, length_firstn, sort_desc_length.
    rewrite <- (length_map (fun e => snd (fst e))), Hl.
    unfold surviving_listings. rewrite fetch_listings_stub.
    unfold dealbreaker_ok, MOCK_LISTINGS.
    destruct (Str.mem "shared_room" (map Str.lower (dealbreakers trip)));
      destruct (Str.mem "private_room" (map Str.lower (dealbreakers trip)));
      reflexivity.
Qed.

End Shipped.

Lemma recommend_stays_with_stubs_witness :
  exists resp,
    @recommend_stays Sample.runtime stub_providers Sample.trip_no_private_room
    = Some resp
    /\ List.length (recommendations resp) = 3%nat.
Proof.
  destruct (@recommend_stays_with_stubs Sample.runtime Sample.trip_no_private_room
              (Date.mkDate 2024 1 10) (Date.mkDate 2024 1 12) eq_refl eq_refl)
    as [resp [E [_ [_ Hlen]]]].
  exists resp. split; [ exact E | exact Hlen ].
Defined.

(** ** The dealbreaker filter, as a whole *)

(** X9: A room type is refused exactly when it is literally ["shared_room"] or
    ["private_room"] and some dealbreaker tag equals it once lowercased; so
    the tags may be written in any case, and a longer list of dealbreakers
    never lets through a room type that a shorter one refuses. *)
Theorem dealbreaker_ok_spec (rt : string) (dbs dbs' : list string) :
  (dealbreaker_ok rt dbs = false
   <-> (rt = "shared_room"%string \/ rt = "private_room"%string)
       /\ exists d, In d dbs /\ Str.lower d = rt)
  /\ ((forall d, In d dbs -> In d dbs') ->
      dealbreaker_ok rt dbs = false -> dealbreaker_ok rt dbs' = false).
Proof.
  assert (Hmem : forall l, Str.mem rt (map Str.lower l) = true
                           <-> exists d, In d l /\ Str.lower d = rt).
  { intro l. rewrite mem_In, in_map_iff.
    split; intros [d [H1 H2]]; exists d; split; assumption. }
  assert (Hspec : forall l, dealbreaker_ok rt l = false
            <-> (rt = "shared_room"%string \/ rt = "private_room"%string)
                /\ exists d, In d l /\ Str.lower d = rt).
  { intro l. rewrite <- Hmem. unfold dealbreaker_ok.
    destruct (String.eqb_spec rt "shared_room") as [-> | Hs].
    - destruct (Str.mem "shared_room" (map Str.lower l)); simpl.
      + split; [ intros _; split; [ left; reflexivity | reflexivity ] | reflexivity ].
      + rewrite andb_false_r.
        split; [ discriminate | intros [_ H]; discriminate ].
    - rewrite andb_false_r.
      destruct (String.eqb_spec rt "private_room") as [-> | Hp].
      + destruct (Str.mem "private_room" (map Str.lower l)); simpl.
        * split; [ intros _; split; [ right; reflexivity | reflexivity ]
                 | reflexivity ].
        * split; [ discriminate | intros [_ H]; discriminate ].
      + rewrite andb_false_r.
        split; [ discriminate | intros [[H | H] _]; contradiction ]. }
  split; [ apply Hspec | ].
  intros Hincl H. apply Hspec in H. apply Hspec.
  destruct H as [Hrt [d [Hd El]]].
  split; [ exact Hrt | ]. exists d. split; [ apply Hincl, Hd | exact El ].
Qed.

Lemma dealbreaker_ok_spec_witness :
  dealbreaker_ok "private_room" ["pets"; "Private_Room"]%string = false.
Proof.
  destruct (dealbreaker_ok_spec "private_room" ["Private_Room"]%string
              ["pets"; "Private_Room"]%string) as [[_ H1] H2].
  apply H2.
  - intros d [<- | []]. right. left. reflexivity.
  - apply H1. split; [ right; reflexivity | ].
    exists "Private_Room"%string. split; [ left; reflexivity | reflexivity ].
Defined.

